(** * keras_core.saving.saving_api: format dispatch for saving and loading

    A shallow embedding of [save_model], [load_model] and [load_weights]
    of [keras_core/saving/saving_api.py].  The three functions are
    dispatchers: they inspect the suffix of the path, ask a few questions
    to collaborators (zip probe, remote file system, interactive prompt)
    and hand the request to one backend.  They are embedded as programs
    over the calls they make; a run against an arbitrary environment
    yields the ordered list of calls, with their answers, and the
    outcome (a returned value or a raised exception). *)

From Stdlib Require Import String Ascii List Bool Arith ZArith Lia.
Import ListNotations.
Set Warnings "-register-all".
Local Open Scope string_scope.
Local Open Scope list_scope.

(** ** Python strings *)

Module PyString.

(** [s.endswith(suf)]: the last [len(suf)] characters of [s] are [suf]. *)
Definition endswith (s suf : string) : bool :=
  let n := String.length s in
  let m := String.length suf in
  Nat.leb m n && String.eqb (substring (n - m) m s) suf.

(** [s.endswith((suf1, suf2, ...))]: one of the suffixes matches. *)
Definition endswith_any (s : string) (sufs : list string) : bool :=
  existsb (endswith s) sufs.

(** [posixpath.basename]: what follows the last slash. *)
Fixpoint basename_from (acc p : string) : string :=
  match p with
  | EmptyString => acc
  | String c rest =>
      if Ascii.eqb c "/"%char then basename_from EmptyString rest
      else basename_from (acc ++ String c EmptyString) rest
  end.

Definition basename (p : string) : string := basename_from EmptyString p.

Definition startswith (s pre : string) : bool := String.prefix pre s.

(** [posixpath.join(a, b)] for two components. *)
Definition join (a b : string) : string :=
  if startswith b "/" then b
  else if Nat.eqb (String.length a) 0 || endswith a "/" then a ++ b
  else a ++ "/" ++ b.

End PyString.

(** ** Python values that cross the dispatcher *)

(** Models, registries and file handles are opaque to this module: they
    are passed on by reference, [PyObj] is the identity of the object. *)
Inductive PyVal : Type :=
| PyNone
| PyBool (b : bool)
| PyInt (z : Z)
| PyStr (s : string)
| PyList (items : list PyVal)
| PyDict (items : list (string * PyVal))
| PyObj (id : nat).

(** Truth value of an object ([if v:]). *)
Definition truthy (v : PyVal) : bool :=
  match v with
  | PyNone => false
  | PyBool b => b
  | PyInt z => negb (Z.eqb z 0)
  | PyStr s => negb (Nat.eqb (String.length s) 0)
  | PyList l => negb (Nat.eqb (length l) 0)
  | PyDict d => negb (Nat.eqb (length d) 0)
  | PyObj _ => true
  end.

(** [**kwargs]: a dict with string keys, in insertion order. *)
Module Kwargs.

Definition t := list (string * PyVal).

Fixpoint get (key : string) (kw : t) : option PyVal :=
  match kw with
  | [] => None
  | (k, v) :: rest => if String.eqb k key then Some v else get key rest
  end.

Definition remove (key : string) (kw : t) : t :=
  filter (fun kv => negb (String.eqb (fst kv) key)) kw.

(** [kwargs.pop(key, default)]: the value and the dict without the key. *)
Definition pop (key : string) (default : PyVal) (kw : t) : PyVal * t :=
  match get key kw with
  | Some v => (v, remove key kw)
  | None => (default, kw)
  end.

(** [list(kwargs.keys())] *)
Definition keys (kw : t) : list string := map fst kw.

(** [if kwargs:] *)
Definition nonempty (kw : t) : bool :=
  match kw with [] => false | _ :: _ => true end.

End Kwargs.

(** ** Exceptions and messages *)

Inductive ExnClass : Type :=
| ValueError
| ImportError
| TypeError
| OtherError (name : string).

(** A message is kept as the pieces of the (f-)string literal: the
    literal text and the interpolated values, unrendered. *)
Inductive Frag : Type :=
| Lit (text : string)
| Fmt (v : PyVal).

Record Exn : Type := mkExn { exn_class : ExnClass; exn_msg : list Frag }.

Definition is_TypeError (e : Exn) : bool :=
  match exn_class e with TypeError => true | _ => false end.

(** ** Calls to collaborators *)

Inductive Call : Type :=
(* os, zipfile *)
| os_path_exists (filepath : string)
| zipfile_is_zipfile (filepath : string)
(* io_utils *)
| ask_to_proceed_with_overwrite (filepath : string)
(* file_utils *)
| is_remote_path (filepath : string)
| isdir (filepath : string)
| file_utils_copy (src dst : string) (overwrite : bool)
(* saving_lib *)
| saving_lib_save_model (model : PyVal) (filepath : string)
| saving_lib_load_model (filepath : string) (custom_objects : PyVal)
                        (compile safe_mode : bool)
| saving_lib_load_weights_only (model : PyVal) (filepath : string)
                               (skip_mismatch : bool)
| get_temp_dir
(* legacy_h5_format *)
| save_model_to_hdf5 (model : PyVal) (filepath : string) (overwrite : bool)
                     (include_optimizer : PyVal)
| load_model_from_hdf5 (filepath : string)
| load_weights_from_hdf5_group_by_name (f model : PyVal) (skip_mismatch : bool)
| load_weights_from_hdf5_group (f model : PyVal)
(* h5py *)
| h5py_File (filepath mode : string)
| h5_attrs_contains (f : PyVal) (key : string)
| h5_contains (f : PyVal) (key : string)
| h5_getitem (f : PyVal) (key : string)
| h5_exit (f : PyVal).

(** The type of what a call returns. *)
Definition result (c : Call) : Type :=
  match c with
  | os_path_exists _ | zipfile_is_zipfile _
  | ask_to_proceed_with_overwrite _
  | is_remote_path _ | isdir _
  | h5_attrs_contains _ _ | h5_contains _ _ => bool
  | get_temp_dir => string
  | saving_lib_load_model _ _ _ _ | load_model_from_hdf5 _
  | h5py_File _ _ | h5_getitem _ _ => PyVal
  | _ => unit
  end.

(** The returned value as a Python value, for the record of a run. *)
Definition to_py (c : Call) : result c -> PyVal :=
  match c return result c -> PyVal with
  | os_path_exists _ | zipfile_is_zipfile _
  | ask_to_proceed_with_overwrite _
  | is_remote_path _ | isdir _
  | h5_attrs_contains _ _ | h5_contains _ _ => PyBool
  | get_temp_dir => PyStr
  | saving_lib_load_model _ _ _ _ | load_model_from_hdf5 _
  | h5py_File _ _ | h5_getitem _ _ => fun v => v
  | _ => fun _ => PyNone
  end.

(** ** Programs *)

(** A program returns, raises, logs a warning (which cannot fail) or
    calls a collaborator and goes on with what the call returned or
    raised. *)
Inductive Prog (R : Type) : Type :=
| Ret (r : R)
| Raise (e : Exn)
| Warn (msg : list Frag) (k : Prog R)
| Act (c : Call) (k : Exn + result c -> Prog R).

Arguments Ret {R} r.
Arguments Raise {R} e.
Arguments Warn {R} msg k.
Arguments Act {R} c k.

Fixpoint bind {A B : Type} (p : Prog A) (f : A -> Prog B) : Prog B :=
  match p with
  | Ret a => f a
  | Raise e => Raise e
  | Warn m k => Warn m (bind k f)
  | Act c k => Act c (fun r => bind (k r) f)
  end.

(** A plain call: an exception of the callee propagates. *)
Definition call (c : Call) : Prog (result c) :=
  Act c (fun r => match r with inl e => Raise e | inr a => Ret a end).

(** [try: x = c except TypeError: x = fallback] *)
Definition call_except_TypeError (c : Call) (fallback : result c)
  : Prog (result c) :=
  Act c (fun r =>
    match r with
    | inl e => if is_TypeError e then Ret fallback else Raise e
    | inr a => Ret a
    end).

Definition logging_warning (msg : list Frag) : Prog unit := Warn msg (Ret tt).

(** [try: p finally: cleanup] *)
Fixpoint finally {A : Type} (p : Prog A) (cleanup : Prog unit) : Prog A :=
  match p with
  | Ret a => bind cleanup (fun _ => Ret a)
  | Raise e => bind cleanup (fun _ => Raise e)
  | Warn m k => Warn m (finally k cleanup)
  | Act c k => Act c (fun r => finally (k r) cleanup)
  end.

Declare Scope prog_scope.
Delimit Scope prog_scope with prog.
Notation "x <- p ;; q" := (bind p (fun x => q))
  (at level 100, p at next level, right associativity) : prog_scope.
Notation "p ;; q" := (bind p (fun _ => q))
  (at level 100, right associativity) : prog_scope.
Local Open Scope prog_scope.

(** ** Running a program *)

Inductive Event : Type :=
| Logged (msg : list Frag)
| Called (c : Call) (r : Exn + PyVal).

Inductive Outcome (R : Type) : Type :=
| Returned (r : R)
| Raised (e : Exn).
Arguments Returned {R} r.
Arguments Raised {R} e.

Record Run (W R : Type) : Type :=
  mkRun { trace : list Event; final : W; outcome : Outcome R }.
Arguments mkRun {W R}.
Arguments trace {W R}.
Arguments final {W R}.
Arguments outcome {W R}.

(** The environment: how each call answers in a world, and the world it
    leaves. *)
Definition Handler (W : Type) : Type :=
  forall c : Call, W -> (Exn + result c) * W.

Definition answer (c : Call) (r : Exn + result c) : Exn + PyVal :=
  match r with inl e => inl e | inr a => inr (to_py c a) end.

Definition log {W R} (ev : Event) (r : Run W R) : Run W R :=
  mkRun (ev :: trace r) (final r) (outcome r).

Fixpoint run {W R : Type} (h : Handler W) (p : Prog R) (w : W) : Run W R :=
  match p with
  | Ret r => mkRun [] w (Returned r)
  | Raise e => mkRun [] w (Raised e)
  | Warn m k => log (Logged m) (run h k w)
  | Act c k =>
      let (r, w') := h c w in
      log (Called c (answer c r)) (run h (k r) w')
  end.

(** ** Messages and exceptions of [saving_api] *)

Module Msg.

(** Warning of [save_model] when [save_format] is passed with a
    recognised extension. *)
Definition save_format_deprecated (save_format : PyVal) : list Frag :=
  [Lit "The `save_format` argument is deprecated in Keras Core. ";
   Lit "We recommend removing this argument as it can be inferred ";
   Lit "from the file path. ";
   Lit "Received: save_format="; Fmt save_format].

(** Deprecation warning of [save_model] for a [.h5]/[.hdf5] path. *)
Definition legacy_hdf5 : list Frag :=
  [Lit "You are saving your model as an HDF5 file via `model.save()`. ";
   Lit "This file format is considered legacy. ";
   Lit "We recommend using instead the native Keras format, ";
   Lit "e.g. `model.save('my_model.keras')`."].

Definition h5py_required : list Frag :=
  [Lit "Loading a H5 file requires `h5py` to be installed."].

End Msg.

Module Err.

Definition save_format_rejected (save_format : PyVal) : Exn :=
  mkExn ValueError
    [Lit "The `save_format` argument is deprecated in Keras Core. ";
     Lit "Please remove this argument and pass a file path with ";
     Lit "either `.keras` or `.h5` extension.";
     Lit "Received: save_format="; Fmt save_format].

Definition unsupported_arguments (kwargs : Kwargs.t) : Exn :=
  mkExn ValueError
    [Lit "The following argument(s) are not supported: ";
     Fmt (PyList (map PyStr (Kwargs.keys kwargs)))].

Definition invalid_save_extension (filepath : string) : Exn :=
  mkExn ValueError
    [Lit "Invalid filepath extension for saving. ";
     Lit "Please add either a `.keras` extension for the native Keras ";
     Lit "format (recommended) or a `.h5` extension. ";
     Lit "Use `tf.saved_model.save()` if you want to export a SavedModel ";
     Lit "for use with TFLite/TFServing/etc. ";
     Lit "Received: filepath="; Fmt (PyStr filepath); Lit "."].

Definition keras_file_not_found (filepath : string) : Exn :=
  mkExn ValueError
    [Lit "File not found: filepath="; Fmt (PyStr filepath); Lit ". ";
     Lit "Please ensure the file is an accessible `.keras` ";
     Lit "zip file."].

Definition load_format_not_supported (filepath : string) : Exn :=
  mkExn ValueError
    [Lit "File format not supported: filepath="; Fmt (PyStr filepath);
     Lit ". ";
     Lit "Keras Core only supports V3 `.keras` files and ";
     Lit "legacy H5 format files (`.h5` extension). ";
     Lit "Note that the legacy SavedModel format is not ";
     Lit "supported in Keras Core."].

Definition invalid_keyword_arguments (kwargs : Kwargs.t) : Exn :=
  mkExn ValueError
    [Lit "Invalid keyword arguments: "; Fmt (PyDict kwargs)].

Definition h5py_missing : Exn := mkExn ImportError Msg.h5py_required.

Definition weights_format_not_supported (filepath : string) : Exn :=
  mkExn ValueError
    [Lit "File format not supported: filepath="; Fmt (PyStr filepath);
     Lit ". ";
     Lit "Keras Core only supports V3 `.keras` and `.weights.h5` ";
     Lit "files."].

End Err.

(** ** The dispatcher *)

(** A path is the string [str(filepath)]; the model, the registry of
    custom objects and the file handles are Python values.  What the
    environment decides (whether a file exists or is a zip archive,
    whether a path is remote, what the user answers, what a backend
    does) comes back as the answer of a call. *)

Import PyString.

(** [save_model(model, filepath, overwrite=True, **kwargs)] *)
Definition save_model (model : PyVal) (filepath : string) (overwrite : bool)
    (kwargs : Kwargs.t) : Prog unit :=
  let (include_optimizer, kwargs) :=
    Kwargs.pop "include_optimizer" (PyBool true) kwargs in
  let (save_format, kwargs) :=
    Kwargs.pop "save_format" (PyBool false) kwargs in
  (if truthy save_format then
     if endswith_any filepath [".h5"; ".hdf5"] || endswith filepath ".keras"
     then
       logging_warning (Msg.save_format_deprecated save_format)
     else Raise (Err.save_format_rejected save_format)
   else Ret tt) ;;
  (if Kwargs.nonempty kwargs then
     Raise (Err.unsupported_arguments kwargs)
   else Ret tt) ;;
  (* Deprecation warnings *)
  (if endswith_any filepath [".h5"; ".hdf5"] then
     logging_warning Msg.legacy_hdf5
   else Ret tt) ;;
  if endswith filepath ".keras" then
    (* If file exists and should not be overwritten. *)
    exists_ <- call_except_TypeError (os_path_exists filepath) false ;;
    if exists_ && negb overwrite then
      proceed <- call (ask_to_proceed_with_overwrite filepath) ;;
      if negb proceed then Ret tt
      else call (saving_lib_save_model model filepath)
    else call (saving_lib_save_model model filepath)
  else if endswith_any filepath [".h5"; ".hdf5"] then
    call (save_model_to_hdf5 model filepath overwrite include_optimizer)
  else Raise (Err.invalid_save_extension filepath).

(** [load_model(filepath, custom_objects=None, compile=True, safe_mode=True)] *)
Definition load_model (filepath : string) (custom_objects : PyVal)
    (compile safe_mode : bool) : Prog PyVal :=
  is_keras_zip <-
    (if endswith filepath ".keras" then call (zipfile_is_zipfile filepath)
     else Ret false) ;;
  (* Support for remote zip files *)
  remote <- call (is_remote_path filepath) ;;
  to_stage <-
    (if remote then
       d <- call (isdir filepath) ;; Ret (negb d && negb is_keras_zip)
     else Ret false) ;;
  staged <-
    (if (to_stage : bool) then
       tmp <- call get_temp_dir ;;
       let local_path := join tmp (basename filepath) in
       (* Copy from remote to temporary local directory *)
       call (file_utils_copy filepath local_path true) ;;
       (* Switch filepath to local zipfile for loading model *)
       z <- call (zipfile_is_zipfile local_path) ;;
       if (z : bool) then Ret (local_path, true)
       else Ret (filepath, is_keras_zip)
     else Ret (filepath, is_keras_zip)) ;;
  let (filepath, is_keras_zip) := (staged : string * bool) in
  if is_keras_zip then
    call (saving_lib_load_model filepath custom_objects compile safe_mode)
  else if endswith_any filepath [".h5"; ".hdf5"] then
    call (load_model_from_hdf5 filepath)
  else if endswith filepath ".keras" then
    Raise (Err.keras_file_not_found filepath)
  else Raise (Err.load_format_not_supported filepath).

(** [with h5py.File(filepath, mode) as f: body]: the file object is
    closed when the body is left, also by an exception. *)
Definition with_h5py_File {A : Type} (filepath mode : string)
    (body : PyVal -> Prog A) : Prog A :=
  f <- call (h5py_File filepath mode) ;;
  finally (body f) (call (h5_exit f)).

(** [load_weights(model, filepath, skip_mismatch=False, **kwargs)].
    [h5py] is the module-level name bound by the guarded import at the
    top of the file: [false] stands for [None] (the import failed). *)
Definition load_weights (h5py : bool) (model : PyVal) (filepath : string)
    (skip_mismatch : bool) (kwargs : Kwargs.t) : Prog unit :=
  if endswith filepath ".keras" then
    if Kwargs.nonempty kwargs then
      Raise (Err.invalid_keyword_arguments kwargs)
    else call (saving_lib_load_weights_only model filepath skip_mismatch)
  else if endswith filepath ".weights.h5" then
    if Kwargs.nonempty kwargs then
      Raise (Err.invalid_keyword_arguments kwargs)
    else call (saving_lib_load_weights_only model filepath skip_mismatch)
  else if endswith filepath ".h5" || endswith filepath ".hdf5" then
    let (by_name, kwargs) := Kwargs.pop "by_name" (PyBool false) kwargs in
    if Kwargs.nonempty kwargs then
      Raise (Err.invalid_keyword_arguments kwargs)
    else if negb h5py then
      Raise Err.h5py_missing
    else
      with_h5py_File filepath "r" (fun f0 =>
        has_names <- call (h5_attrs_contains f0 "layer_names") ;;
        nested <-
          (if negb has_names then call (h5_contains f0 "model_weights")
           else Ret false) ;;
        f <- (if (nested : bool) then call (h5_getitem f0 "model_weights")
              else Ret f0) ;;
        if truthy by_name then
          call (load_weights_from_hdf5_group_by_name f model skip_mismatch)
        else call (load_weights_from_hdf5_group f model))
  else Raise (Err.weights_format_not_supported filepath).

(** ** What a run shows *)

Module Obs.

Definition is_copy (c : Call) : bool :=
  match c with file_utils_copy _ _ _ => true | _ => false end.

(** [legacy_h5_format.load_model_from_hdf5] *)
Definition is_legacy_read (c : Call) : bool :=
  match c with load_model_from_hdf5 _ => true | _ => false end.

(** [saving_lib.load_model] *)
Definition is_archive_read (c : Call) : bool :=
  match c with saving_lib_load_model _ _ _ _ => true | _ => false end.

Definition is_backend_read (c : Call) : bool :=
  is_legacy_read c || is_archive_read c.

(** [saving_lib.save_model] *)
Definition is_archive_write (c : Call) : bool :=
  match c with saving_lib_save_model _ _ => true | _ => false end.

(** Any entry point of [saving_lib], the archive backend. *)
Definition is_archive_backend (c : Call) : bool :=
  match c with
  | saving_lib_save_model _ _ | saving_lib_load_model _ _ _ _
  | saving_lib_load_weights_only _ _ _ | get_temp_dir => true
  | _ => false
  end.

Definition opens_file (c : Call) : bool :=
  match c with
  | h5py_File _ _ | saving_lib_load_weights_only _ _ _ => true
  | _ => false
  end.

(** The calls that create or write a file or a directory: the copy
    into the temporary directory, the creation of that directory, and
    the two writers. *)
Definition writes_files (c : Call) : bool :=
  match c with
  | file_utils_copy _ _ _ | get_temp_dir
  | saving_lib_save_model _ _ | save_model_to_hdf5 _ _ _ _ => true
  | _ => false
  end.

(** The arguments a call passes, as the callee receives them. *)
Definition args (c : Call) : list PyVal :=
  match c with
  | os_path_exists p | zipfile_is_zipfile p
  | ask_to_proceed_with_overwrite p
  | is_remote_path p | isdir p | load_model_from_hdf5 p => [PyStr p]
  | file_utils_copy src dst ow => [PyStr src; PyStr dst; PyBool ow]
  | saving_lib_save_model m p => [m; PyStr p]
  | saving_lib_load_model p co c sm => [PyStr p; co; PyBool c; PyBool sm]
  | saving_lib_load_weights_only m p sk => [m; PyStr p; PyBool sk]
  | get_temp_dir => []
  | save_model_to_hdf5 m p ow io => [m; PyStr p; PyBool ow; io]
  | load_weights_from_hdf5_group_by_name f m sk => [f; m; PyBool sk]
  | load_weights_from_hdf5_group f m => [f; m]
  | h5py_File p mode => [PyStr p; PyStr mode]
  | h5_attrs_contains f k | h5_contains f k | h5_getitem f k =>
      [f; PyStr k]
  | h5_exit f => [f]
  end.

(** No call of the kind [p] is made. *)
Definition never (p : Call -> bool) (tr : list Event) : bool :=
  forallb (fun ev =>
    match ev with Called c _ => negb (p c) | Logged _ => true end) tr.

(** Some call of the kind [p] is made. *)
Definition some (p : Call -> bool) (tr : list Event) : bool :=
  existsb (fun ev =>
    match ev with Called c _ => p c | Logged _ => false end) tr.

(** Every call returned, except possibly calls of the kind [p]. *)
Definition returned_except (p : Call -> bool) (tr : list Event) : bool :=
  forallb (fun ev =>
    match ev with Called c (inl _) => p c | _ => true end) tr.

(** Every call returned. *)
Definition all_returned (tr : list Event) : bool :=
  returned_except (fun _ => false) tr.

(** No zip probe answered that the file is a zip archive. *)
Definition no_probe_found_zip (tr : list Event) : bool :=
  forallb (fun ev =>
    match ev with
    | Called (zipfile_is_zipfile _) (inr v) => negb (truthy v)
    | _ => true
    end) tr.

(** The overwrite guard of [save_model] let the save proceed: the
    existence check returned or raised [TypeError], and the prompt, if
    asked, answered yes. *)
Definition guard_granted (tr : list Event) : bool :=
  forallb (fun ev =>
    match ev with
    | Called (os_path_exists _) (inl e) => is_TypeError e
    | Called (ask_to_proceed_with_overwrite _) (inl _) => false
    | Called (ask_to_proceed_with_overwrite _) (inr v) => truthy v
    | _ => true
    end) tr.

(** The call [c] returned [v] at some point of the run. *)
Definition answered (c : Call) (v : PyVal) (tr : list Event) : Prop :=
  In (Called c (inr v)) tr.

Fixpoint last_event (tr : list Event) : option Event :=
  match tr with
  | [] => None
  | [ev] => Some ev
  | _ :: rest => last_event rest
  end.

(** The run ends by handing the request over to the call [c]: [c] is
    the last event, and the run returns what [c] returns ([val] reads
    the returned value as a Python value) or raises what [c] raises. *)
Definition hands_over {W R : Type} (val : R -> PyVal) (c : Call)
    (rn : Run W R) : Prop :=
  match last_event (trace rn) with
  | Some (Called c' r) =>
      c' = c /\
      match r with
      | inl e => outcome rn = Raised e
      | inr v => exists x, outcome rn = Returned x /\ val x = v
      end
  | _ => False
  end.

Definition unit_val (_ : unit) : PyVal := PyNone.
Definition py_val (v : PyVal) : PyVal := v.

(** A message names [word] when one of its literal pieces contains it. *)
Definition mentions (word : string) (msg : list Frag) : bool :=
  existsb (fun f =>
    match f with
    | Lit text =>
        match String.index 0 word text with Some _ => true | None => false end
    | Fmt _ => false
    end) msg.

End Obs.

(** The keyword arguments as [save_model] reads them with its two
    [pop]s: the two values, and the rest, which it does not support. *)
Definition save_format_of (kwargs : Kwargs.t) : PyVal :=
  fst (Kwargs.pop "save_format" (PyBool false)
         (snd (Kwargs.pop "include_optimizer" (PyBool true) kwargs))).

Definition include_optimizer_of (kwargs : Kwargs.t) : PyVal :=
  fst (Kwargs.pop "include_optimizer" (PyBool true) kwargs).

Definition unsupported_of (kwargs : Kwargs.t) : Kwargs.t :=
  snd (Kwargs.pop "save_format" (PyBool false)
         (snd (Kwargs.pop "include_optimizer" (PyBool true) kwargs))).

(** ** Parameters and by-position reconciliation *)

(** Modelled from the spec: the parameters of a live model and of a
    stored legacy file, and [legacy_h5_format.load_weights_from_hdf5_group],
    are not part of [saving_api.py].  A parameter is a name, a shape and
    its values (section 3, NamedParameterSet). *)
Record Param : Type :=
  mkParam { p_name : string; p_shape : list nat; p_data : list Z }.

Definition same_shape (a b : Param) : bool :=
  if list_eq_dec Nat.eq_dec (p_shape a) (p_shape b) then true else false.

(** Modelled from the spec: section 4.6, ByPosition.  Parameters are
    paired in order; a count or shape mismatch at a position is fatal
    unless [skip] is set, in which case the entry keeps its current value
    and the pairing goes on with the next position.  The live parameters
    before a fatal mismatch stay applied (section 9, no rollback).  The
    result is the live parameters after the call and the error, if any;
    [pos] is the position of the head of the lists. *)
Fixpoint reconcile_by_position (skip : bool) (pos : nat)
    (live stored : list Param) : list Param * option Exn :=
  match live, stored with
  | [], [] => ([], None)
  | m :: live', s :: stored' =>
      if same_shape m s then
        let (rest, err) := reconcile_by_position skip (S pos) live' stored' in
        (mkParam (p_name m) (p_shape m) (p_data s) :: rest, err)
      else if skip then
        let (rest, err) := reconcile_by_position skip (S pos) live' stored' in
        (m :: rest, err)
      else
        (live,
         Some (mkExn ValueError
                 [Lit "ShapeMismatch at position "; Fmt (PyInt (Z.of_nat pos))]))
  | _, _ =>
      if skip then (live, None)
      else
        (live,
         Some (mkExn ValueError
                 [Lit "CountMismatch at position "; Fmt (PyInt (Z.of_nat pos))]))
  end.

(** ** A simulated environment *)

(** A small file system, prompt and legacy file to run the dispatcher
    on concrete requests. *)
Module Sim.

Record World : Type := mkWorld {
  zips : list string;       (* paths whose bytes are a zip archive *)
  remote : list string;     (* paths on a remote file system *)
  dirs : list string;       (* directories *)
  present : list string;    (* paths that exist *)
  prompt_answer : bool;     (* what the user answers to the prompt *)
  tmpdir : string;          (* the temporary directory *)
  layer_names_attr : bool;  (* the legacy file has a layer_names attribute *)
  model_weights_group : bool; (* the legacy file has a model_weights group *)
  live : list Param;        (* the parameters of the live model *)
  stored : list Param       (* the parameters recorded in the legacy file *)
}.

Definition mem (p : string) (l : list string) : bool :=
  existsb (String.eqb p) l.

Definition drop (p : string) (l : list string) : list string :=
  filter (fun q => negb (String.eqb p q)) l.

(** A file written at [p]: it exists, and it is a zip archive or not. *)
Definition write (p : string) (is_zip : bool) (w : World) : World :=
  mkWorld (if is_zip then p :: drop p (zips w) else drop p (zips w))
          (remote w) (dirs w) (p :: drop p (present w))
          (prompt_answer w) (tmpdir w) (layer_names_attr w)
          (model_weights_group w) (live w) (stored w).

Definition set_live (l : list Param) (w : World) : World :=
  mkWorld (zips w) (remote w) (dirs w) (present w) (prompt_answer w)
          (tmpdir w) (layer_names_attr w) (model_weights_group w)
          l (stored w).

(** Modelled from the spec: [load_weights_from_hdf5_group(f, model)],
    the by-position reader of the legacy backend (section 6,
    readWeightsByPosition(fileHandle, model)).  It is not told
    [skip_mismatch], so it reconciles with the flag unset. *)
Definition read_weights_by_position (w : World) : (Exn + unit) * World :=
  let (l, err) := reconcile_by_position false 0 (live w) (stored w) in
  (match err with Some e => inl e | None => inr tt end, set_live l w).

Definition handler : Handler World :=
  fun c =>
    match c return World -> (Exn + result c) * World with
    | os_path_exists p => fun w => (inr (mem p (present w)), w)
    | zipfile_is_zipfile p =>
        (* [zipfile] opens local files only *)
        fun w => (inr (mem p (zips w) && negb (mem p (remote w))), w)
    | ask_to_proceed_with_overwrite _ =>
        fun w => (inr (prompt_answer w), w)
    | is_remote_path p => fun w => (inr (mem p (remote w)), w)
    | isdir p => fun w => (inr (mem p (dirs w)), w)
    | file_utils_copy src dst _ =>
        fun w => (inr tt, write dst (mem src (zips w)) w)
    | saving_lib_save_model _ p => fun w => (inr tt, write p true w)
    | saving_lib_load_model _ _ _ _ => fun w => (inr (PyObj 1), w)
    | saving_lib_load_weights_only _ _ _ => fun w => (inr tt, w)
    | get_temp_dir => fun w => (inr (tmpdir w), w)
    | save_model_to_hdf5 _ p _ _ => fun w => (inr tt, write p false w)
    | load_model_from_hdf5 _ => fun w => (inr (PyObj 2), w)
    | load_weights_from_hdf5_group_by_name _ _ _ =>
        (* by-name reconciliation is not simulated *)
        fun w => (inl (mkExn (OtherError "NotImplementedError") []), w)
    | load_weights_from_hdf5_group _ _ => read_weights_by_position
    | h5py_File _ _ => fun w => (inr (PyObj 10), w)
    | h5_attrs_contains _ _ => fun w => (inr (layer_names_attr w), w)
    | h5_contains _ _ => fun w => (inr (model_weights_group w), w)
    | h5_getitem _ _ => fun w => (inr (PyObj 11), w)
    | h5_exit _ => fun w => (inr tt, w)
    end.


(** An empty local file system with a prompt that answers no. *)
Definition empty : World :=
  mkWorld [] [] [] [] false "/tmp/keras" true false [] [].

End Sim.

(** Some requests and worlds, for concrete runs. *)
Module Ex.

Definition model : PyVal := PyObj 0.



(** A remote [.h5] file that is not a zip archive. *)
Definition remote_h5 : Sim.World :=
  Sim.mkWorld [] ["gs://bucket/model.h5"] [] ["gs://bucket/model.h5"]
              false "/tmp/keras" true false [] [].

(** A remote [.keras] file that is not a zip archive. *)
Definition remote_keras_corrupt : Sim.World :=
  Sim.mkWorld [] ["gs://bucket/model.keras"] [] ["gs://bucket/model.keras"]
              false "/tmp/keras" true false [] [].

(** A local [model.keras] exists; the user answers no to the prompt. *)
Definition existing_keras : Sim.World :=
  Sim.mkWorld ["model.keras"] [] [] ["model.keras"]
              false "/tmp/keras" true false [] [].

(** A model of two parameters and a legacy file whose first parameter
    has another shape. *)
Definition weights_mismatch : Sim.World :=
  Sim.mkWorld [] [] [] ["w.h5"] false "/tmp/keras" true false
    [mkParam "dense/kernel" [2] [0; 0]%Z; mkParam "dense/bias" [1] [0]%Z]
    [mkParam "dense/kernel" [3] [1; 2; 3]%Z; mkParam "dense/bias" [1] [7]%Z].

End Ex.

(** ** The statements of the design document, as written *)

Module Spec.





(** Section 4.4, step 3: the archive write receives
    [includeOptimizerState]. *)
Definition archive_write_receives_flag {W : Type} (kwargs : Kwargs.t)
    (rn : Run W unit) : Prop :=
  exists c r,
    In (Called c r) (trace rn) /\ Obs.is_archive_write c = true /\
    In (include_optimizer_of kwargs) (Obs.args c).

(** Section 4.4, step 1: the value of the deprecated selector agrees
    with the extension of the path. *)
Definition save_format_agrees (save_format : PyVal) (filepath : string)
  : bool :=
  match save_format with
  | PyStr v =>
      (String.eqb v "keras" && endswith filepath ".keras") ||
      ((String.eqb v "h5" || String.eqb v "hdf5") &&
       endswith_any filepath [".h5"; ".hdf5"])
  | _ => false
  end.

(** A selector that disagrees with the extension is a hard error. *)
Definition disagreeing_save_format_rejected : Prop :=
  forall W (h : Handler W) (w : W) model filepath overwrite kwargs,
    truthy (save_format_of kwargs) = true ->
    save_format_agrees (save_format_of kwargs) filepath = false ->
    exists e, outcome (run h (save_model model filepath overwrite kwargs) w)
              = Raised e.

End Spec.

(** ** Routes *)

(** Kinds of calls, to say which route a run takes. *)
Module Route.

Definition any (c : Call) : bool := true.

(** [zipfile.is_zipfile] *)
Definition is_zip_probe (c : Call) : bool :=
  match c with zipfile_is_zipfile _ => true | _ => false end.

(** [io_utils.ask_to_proceed_with_overwrite] *)
Definition is_prompt (c : Call) : bool :=
  match c with ask_to_proceed_with_overwrite _ => true | _ => false end.

(** [os.path.exists] *)
Definition is_exists_check (c : Call) : bool :=
  match c with os_path_exists _ => true | _ => false end.

(** The probe and the staging calls of [load_model]. *)
Definition is_staging (c : Call) : bool :=
  match c with
  | zipfile_is_zipfile _ | is_remote_path _ | isdir _
  | get_temp_dir | file_utils_copy _ _ _ => true
  | _ => false
  end.

(** The two readers of weights of the legacy backend. *)
Definition is_weights_reader (c : Call) : bool :=
  match c with
  | load_weights_from_hdf5_group_by_name _ _ _
  | load_weights_from_hdf5_group _ _ => true
  | _ => false
  end.

(** [h5py.File] and what is asked of the open file. *)
Definition is_h5py (c : Call) : bool :=
  match c with
  | h5py_File _ _ | h5_attrs_contains _ _ | h5_contains _ _
  | h5_getitem _ _ | h5_exit _ => true
  | _ => false
  end.

(** The call [c] raised [e] at some point of the run. *)
Definition raised (c : Call) (e : Exn) (tr : list Event) : Prop :=
  In (Called c (inl e)) tr.

(** The call [c] was made. *)
Definition called (c : Call) (tr : list Event) : Prop :=
  exists r, In (Called c r) tr.


(** The run ends with the call [c]. *)
Definition ends_with (c : Call) (tr : list Event) : Prop :=
  exists r, Obs.last_event tr = Some (Called c r).

End Route.

(** Environments in which one collaborator fails. *)
Module Faulty.

(** [os.path.exists] raises [e]; the rest is the simulated world. *)
Definition exists_raises (e : Exn) : Handler Sim.World :=
  fun c =>
    match c return Sim.World -> (Exn + result c) * Sim.World with
    | os_path_exists _ => fun w => (inl e, w)
    | c' => Sim.handler c'
    end.

(** The zip probe can open [path] although it is remote (a mounted
    remote file system) and finds an archive; the rest is the simulated
    world. *)
Definition local_probe_succeeds (path : string) : Handler Sim.World :=
  fun c =>
    match c return Sim.World -> (Exn + result c) * Sim.World with
    | zipfile_is_zipfile p =>
        fun w => if String.eqb p path then (inr true, w)
                 else Sim.handler (zipfile_is_zipfile p) w
    | c' => Sim.handler c'
    end.

(** What [os.path.exists] raises on an object that is not a path. *)
Definition not_a_path : Exn :=
  mkExn TypeError
    [Lit "stat: path should be string, bytes, os.PathLike or integer"].

Definition disk_error : Exn := mkExn (OtherError "OSError") [].

End Faulty.

(** More requests and worlds, for concrete runs. *)
Module Ex2.

(** A legacy file of the nested layout: no [layer_names] attribute, a
    [model_weights] group. *)
Definition nested_h5 : Sim.World :=
  Sim.mkWorld [] [] [] ["w.h5"] false "/tmp/keras" false true
    [mkParam "dense/bias" [1] [0]%Z] [mkParam "dense/bias" [1] [7]%Z].

(** A remote [.keras] archive. *)
Definition remote_keras : Sim.World :=
  Sim.mkWorld ["gs://bucket/model.keras"] ["gs://bucket/model.keras"] []
              ["gs://bucket/model.keras"] false "/tmp/keras" true false [] [].

(** A local zip archive whose name does not end in [.keras]. *)
Definition local_zip : Sim.World :=
  Sim.mkWorld ["model.zip"] [] [] ["model.zip"]
              false "/tmp/keras" true false [] [].

(** A remote directory. *)
Definition remote_dir : Sim.World :=
  Sim.mkWorld [] ["gs://bucket/saved_model"] ["gs://bucket/saved_model"]
              ["gs://bucket/saved_model"] false "/tmp/keras" true false [] [].

(** A local [model.keras] archive. *)
Definition local_keras : Sim.World :=
  Sim.mkWorld ["model.keras"] [] [] ["model.keras"]
              true "/tmp/keras" true false [] [].

End Ex2.

(** ** Tactics *)

Arguments endswith : simpl never.
Arguments endswith_any : simpl never.
Arguments join : simpl never.
Arguments basename : simpl never.

(** Case analysis of a run: on what a call answers, on a boolean under
    test, and rewriting with the known suffix tests. *)
Ltac run_step h :=
  match goal with
  | |- context [h ?c ?w] =>
      let e := fresh "e" in
      let a := fresh "a" in
      let w' := fresh "w" in
      destruct (h c w) as [[e|a] w']; cbn
  end.

Ltac use_suffix :=
  match goal with
  | H : endswith _ _ = _ |- _ => rewrite H
  | H : endswith_any _ _ = _ |- _ => rewrite H
  end.

Ltac split_test :=
  match goal with
  | |- context [if ?c then _ else _] =>
      match c with
      | context [?a] =>
          is_var a;
          match type of a with
          | bool => destruct a
          | result _ => destruct a
          end; cbn
      end
  end.

Ltac split_kwargs :=
  match goal with
  | |- context [if truthy ?v then _ else _] =>
      let E := fresh "Htruthy" in destruct (truthy v) eqn:E; cbn
  | |- context [Kwargs.nonempty ?k] => is_var k; destruct k; cbn
  | |- context [is_TypeError ?e] =>
      let E := fresh "Hclass" in destruct (is_TypeError e) eqn:E; cbn
  end.

Ltac crunch h :=
  cbn;
  repeat first
    [ run_step h | split_test | split_kwargs | progress (use_suffix; cbn) ].

(** The keyword arguments of [save_model], read once. *)
Ltac read_kwargs kw :=
  unfold save_model, save_format_of, unsupported_of, include_optimizer_of
    in *;
  let io := fresh "include_optimizer" in
  let kw1 := fresh "kwargs" in
  let sf := fresh "save_format" in
  let kw2 := fresh "kwargs" in
  destruct (Kwargs.pop "include_optimizer" (PyBool true) kw) as [io kw1];
  cbn [fst snd] in *;
  destruct (Kwargs.pop "save_format" (PyBool false) kw1) as [sf kw2];
  cbn [fst snd] in *.

(** Membership in a trace that is known: one case per event. *)
Ltac in_cases :=
  repeat match goal with
    | H : _ \/ _ |- _ => destruct H
    | H : False |- _ => destruct H
    | H : Logged _ = Called _ _ |- _ => discriminate H
    | H : Called _ _ = Called _ _ |- _ => inversion H; clear H; subst
    end.

(** * Properties *)

(** ** Suffixes *)

Section Suffix.

Example endswith_keras : endswith "model.keras" ".keras" = true.
Proof. reflexivity. Qed.

Example endswith_too_short : endswith "keras" ".keras" = false.
Proof. reflexivity. Qed.

Example endswith_empty : endswith "model" "" = true.
Proof. reflexivity. Qed.

Example staged_path :
  join "/tmp/keras" (basename "gs://bucket/model.h5") = "/tmp/keras/model.h5".
Proof. reflexivity. Qed.

Example join_after_slash : join "/tmp/" "model.h5" = "/tmp/model.h5".
Proof. reflexivity. Qed.

Lemma length_append (a b : string) :
  String.length (a ++ b) = String.length a + String.length b.
Proof. induction a as [|c a IH]; simpl; [reflexivity | now rewrite IH]. Qed.

Lemma append_assoc (a b c : string) : ((a ++ b) ++ c = a ++ (b ++ c))%string.
Proof. induction a as [|x a IH]; simpl; [reflexivity | now rewrite IH]. Qed.

Lemma substring_whole (s : string) : substring 0 (String.length s) s = s.
Proof. induction s as [|c s IH]; simpl; [reflexivity | now rewrite IH]. Qed.

Lemma substring_skip (pre s : string) (m : nat) :
  substring (String.length pre) m (pre ++ s) = substring 0 m s.
Proof. induction pre as [|c pre IH]; simpl; [reflexivity | exact IH]. Qed.

Lemma substring_split (s : string) (k : nat) :
  k <= String.length s ->
  s = (substring 0 k s ++ substring k (String.length s - k) s)%string.
Proof.
  revert k; induction s as [|c s IH]; intros k Hk; simpl in *.
  - destruct k; reflexivity.
  - destruct k as [|k]; simpl.
    + now rewrite substring_whole.
    + f_equal. apply IH. lia.
Qed.

(** [endswith] is the suffix relation. *)
Lemma endswith_spec (s suf : string) :
  endswith s suf = true <-> exists pre, s = (pre ++ suf)%string.
Proof.
  unfold endswith; split.
  - intros H. apply andb_prop in H as [Hle Heq].
    apply Nat.leb_le in Hle. apply String.eqb_eq in Heq.
    exists (substring 0 (String.length s - String.length suf) s).
    pose proof (substring_split s (String.length s - String.length suf))
      as Hs.
    replace (String.length s - (String.length s - String.length suf))
      with (String.length suf) in Hs by lia.
    rewrite Heq in Hs. apply Hs. lia.
  - intros [pre ->]. rewrite length_append.
    replace (String.length pre + String.length suf - String.length suf)
      with (String.length pre) by lia.
    rewrite substring_skip, substring_whole, String.eqb_refl.
    rewrite andb_true_r. apply Nat.leb_le. lia.
Qed.

(** A suffix of a suffix is a suffix. *)
Lemma endswith_tail (s a b : string) :
  endswith s (a ++ b) = true -> endswith s b = true.
Proof.
  intros H. apply endswith_spec in H as [pre ->].
  apply endswith_spec. exists (pre ++ a)%string. now rewrite append_assoc.
Qed.

(** Two suffixes of one character are the same character. *)
Lemma endswith_last_char (s : string) (c d : ascii) :
  endswith s (String c EmptyString) = true ->
  endswith s (String d EmptyString) = true -> c = d.
Proof.
  unfold endswith; intros Hc Hd.
  apply andb_prop in Hc as [_ Hc]. apply andb_prop in Hd as [_ Hd].
  apply String.eqb_eq in Hc, Hd. simpl String.length in *. congruence.
Qed.

(** A [.keras] path is in neither legacy family. *)
Lemma keras_not_legacy (s : string) :
  endswith s ".keras" = true -> endswith_any s [".h5"; ".hdf5"] = false.
Proof.
  intros Hk. apply (endswith_tail s ".kera" "s") in Hk.
  unfold endswith_any; simpl.
  destruct (endswith s ".h5") eqn:H5.
  - apply (endswith_tail s ".h" "5") in H5.
    pose proof (endswith_last_char _ _ _ Hk H5). discriminate.
  - destruct (endswith s ".hdf5") eqn:Hd; [|reflexivity].
    apply (endswith_tail s ".hdf" "5") in Hd.
    pose proof (endswith_last_char _ _ _ Hk Hd). discriminate.
Qed.

Lemma legacy_not_keras (s : string) :
  endswith_any s [".h5"; ".hdf5"] = true -> endswith s ".keras" = false.
Proof.
  intros H. destruct (endswith s ".keras") eqn:Hk; [|reflexivity].
  apply keras_not_legacy in Hk. congruence.
Qed.

(** A [.weights.h5] path is in the [.h5] family. *)
Lemma weights_h5_is_legacy (s : string) :
  endswith s ".weights.h5" = true ->
  endswith_any s [".h5"; ".hdf5"] = true /\ endswith s ".keras" = false.
Proof.
  intros H. apply (endswith_tail s ".weights" ".h5") in H.
  assert (Hl : endswith_any s [".h5"; ".hdf5"] = true)
    by (unfold endswith_any; simpl; now rewrite H).
  split; [exact Hl | now apply legacy_not_keras].
Qed.


End Suffix.

(** ** Keyword arguments *)

Section KwargsFacts.

Lemma get_remove_same (k : string) (kw : Kwargs.t) :
  Kwargs.get k (Kwargs.remove k kw) = None.
Proof.
  induction kw as [|[k' v] kw IH]; simpl; [reflexivity|].
  destruct (String.eqb k' k) eqn:E; simpl; [exact IH | now rewrite E].
Qed.

Lemma get_remove_other (k k' : string) (kw : Kwargs.t) :
  k <> k' -> Kwargs.get k (Kwargs.remove k' kw) = Kwargs.get k kw.
Proof.
  intros Hne. induction kw as [|[x v] kw IH]; simpl; [reflexivity|].
  destruct (String.eqb x k') eqn:E; simpl.
  - apply String.eqb_eq in E; subst x.
    destruct (String.eqb k' k) eqn:E'; [|exact IH].
    apply String.eqb_eq in E'. congruence.
  - now rewrite IH.
Qed.

Lemma remove_absent (k : string) (kw : Kwargs.t) :
  Kwargs.get k kw = None -> Kwargs.remove k kw = kw.
Proof.
  induction kw as [|[k' v] kw IH]; simpl; [reflexivity|].
  destruct (String.eqb k' k); [discriminate|]. simpl.
  intros H. now rewrite IH.
Qed.

Lemma remove_comm (k k' : string) (kw : Kwargs.t) :
  Kwargs.remove k (Kwargs.remove k' kw) =
  Kwargs.remove k' (Kwargs.remove k kw).
Proof.
  induction kw as [|[x v] kw IH]; simpl; [reflexivity|].
  destruct (String.eqb x k') eqn:E, (String.eqb x k) eqn:E'; simpl;
    rewrite ?E, ?E'; simpl; now rewrite IH.
Qed.

(** What [pop] leaves is the dict without the key. *)
Lemma pop_rest (k : string) (d : PyVal) (kw : Kwargs.t) :
  snd (Kwargs.pop k d kw) = Kwargs.remove k kw.
Proof.
  unfold Kwargs.pop. destruct (Kwargs.get k kw) eqn:E; simpl;
    [reflexivity | symmetry; now apply remove_absent].
Qed.

Lemma pop_value (k : string) (d : PyVal) (kw : Kwargs.t) :
  fst (Kwargs.pop k d kw) =
  match Kwargs.get k kw with Some v => v | None => d end.
Proof. unfold Kwargs.pop. now destruct (Kwargs.get k kw). Qed.

Lemma pop_eta (k : string) (d : PyVal) (kw : Kwargs.t) :
  Kwargs.pop k d kw =
  (match Kwargs.get k kw with Some v => v | None => d end,
   Kwargs.remove k kw).
Proof.
  rewrite <- pop_rest with (d := d), <- pop_value. now destruct Kwargs.pop.
Qed.

Lemma save_format_of_eq (kw : Kwargs.t) :
  save_format_of kw =
  match Kwargs.get "save_format" kw with
  | Some v => v
  | None => PyBool false
  end.
Proof.
  unfold save_format_of. rewrite pop_value, pop_rest.
  rewrite get_remove_other by discriminate. reflexivity.
Qed.

End KwargsFacts.

(** ** Runs *)

Section RunFacts.

Context {W : Type} (h : Handler W).

Lemma run_bind {A B : Type} (p : Prog A) (f : A -> Prog B) (w : W) :
  run h (bind p f) w =
  match outcome (run h p w) with
  | Returned a =>
      let rn := run h (f a) (final (run h p w)) in
      mkRun (trace (run h p w) ++ trace rn) (final rn) (outcome rn)
  | Raised e => mkRun (trace (run h p w)) (final (run h p w)) (Raised e)
  end.
Proof.
  revert w; induction p as [a|e|m k IH|c k IH]; intros w; simpl.
  - now destruct (run h (f a) w).
  - reflexivity.
  - rewrite IH. now destruct (outcome (run h k w)).
  - destruct (h c w) as [r w']. simpl. rewrite IH.
    now destruct (outcome (run h (k r) w')).
Qed.


End RunFacts.


(** ** Loading a model *)

(** C1.  A path that ends in [.keras] is never handed to the legacy
    reader.  When, moreover, no zip probe of the run finds an archive
    (and the collaborators asked on the way return), [load_model] raises
    the error of a missing or corrupt [.keras] archive, naming the path
    it was given; this error is not the unsupported-format error, and
    the archive reader is not called either. *)
Theorem load_model_corrupt_keras
    (W : Type) (h : Handler W) (w : W)
    (filepath : string) (custom_objects : PyVal) (compile safe_mode : bool) :
  endswith filepath ".keras" = true ->
  let rn := run h (load_model filepath custom_objects compile safe_mode) w in
  Obs.never Obs.is_legacy_read (trace rn) = true /\
  (Obs.all_returned (trace rn) = true ->
   Obs.no_probe_found_zip (trace rn) = true ->
   outcome rn = Raised (Err.keras_file_not_found filepath) /\
   Err.keras_file_not_found filepath <>
     Err.load_format_not_supported filepath /\
   Obs.never Obs.is_archive_read (trace rn) = true).
Proof.
  intros Hk rn; subst rn.
  pose proof (keras_not_legacy _ Hk) as Hl.
  unfold load_model. crunch h.
  all: split; [reflexivity | intros; try discriminate].
  all: repeat split; try reflexivity; discriminate.
Qed.

Lemma load_model_corrupt_keras_witness :
  let filepath := "gs://bucket/model.keras" in
  let rn := run Sim.handler (load_model filepath PyNone true true)
                Ex.remote_keras_corrupt in
  endswith filepath ".keras" = true /\
  Obs.all_returned (trace rn) = true /\
  Obs.no_probe_found_zip (trace rn) = true /\
  Obs.some Obs.is_copy (trace rn) = true /\
  outcome rn = Raised (Err.keras_file_not_found filepath).
Proof.
  do 4 (split; [reflexivity|]).
  exact (proj1 (proj2 (load_model_corrupt_keras _ Sim.handler
                         Ex.remote_keras_corrupt "gs://bucket/model.keras"
                         PyNone true true eq_refl) eq_refl eq_refl)).
Defined.

(** C9.  When the source was copied into the temporary directory and no
    zip probe of the run found an archive, the dispatch goes on with the
    path the caller gave: the legacy reader is called on it, or the error
    raised names it; the archive reader is not called. *)
Theorem load_model_staged_not_zip
    (W : Type) (h : Handler W) (w : W)
    (filepath : string) (custom_objects : PyVal) (compile safe_mode : bool) :
  let rn := run h (load_model filepath custom_objects compile safe_mode) w in
  Obs.returned_except Obs.is_backend_read (trace rn) = true ->
  Obs.some Obs.is_copy (trace rn) = true ->
  Obs.no_probe_found_zip (trace rn) = true ->
  (if endswith_any filepath [".h5"; ".hdf5"] then
     Obs.hands_over Obs.py_val (load_model_from_hdf5 filepath) rn
   else if endswith filepath ".keras" then
     outcome rn = Raised (Err.keras_file_not_found filepath)
   else outcome rn = Raised (Err.load_format_not_supported filepath)) /\
  Obs.never Obs.is_archive_read (trace rn) = true.
Proof.
  intros rn; subst rn. unfold load_model.
  destruct (endswith filepath ".keras") eqn:Hk;
    destruct (endswith_any filepath [".h5"; ".hdf5"]) eqn:Hl;
    crunch h.
  all: intros; try discriminate.
  all: split; try reflexivity.
  all: unfold Obs.hands_over; cbn; split; eauto.
Qed.

Lemma load_model_staged_not_zip_witness :
  let filepath := "gs://bucket/model.h5" in
  let rn := run Sim.handler (load_model filepath PyNone true true)
                Ex.remote_h5 in
  Obs.returned_except Obs.is_backend_read (trace rn) = true /\
  Obs.some Obs.is_copy (trace rn) = true /\
  Obs.no_probe_found_zip (trace rn) = true /\
  Obs.hands_over Obs.py_val (load_model_from_hdf5 filepath) rn.
Proof.
  do 3 (split; [reflexivity|]).
  exact (proj1 (load_model_staged_not_zip _ Sim.handler Ex.remote_h5
                  "gs://bucket/model.h5" PyNone true true
                  eq_refl eq_refl eq_refl)).
Defined.




(** ** Unsupported suffixes *)




(** ** Saving a model *)



(** C10.  A destination that ends in [.weights.h5] is in the [.h5]
    family at save time: after the deprecation warning of the legacy
    format, [save_model] hands the request to the legacy writer, and no
    entry point of the archive backend is called. *)
Theorem save_weights_h5_goes_legacy
    (W : Type) (h : Handler W) (w : W) (model : PyVal) (filepath : string)
    (overwrite : bool) (kwargs : Kwargs.t) :
  endswith filepath ".weights.h5" = true ->
  unsupported_of kwargs = [] ->
  let rn := run h (save_model model filepath overwrite kwargs) w in
  let writer :=
    save_model_to_hdf5 model filepath overwrite (include_optimizer_of kwargs) in
  (exists ans,
     trace rn =
       (if truthy (save_format_of kwargs)
        then [Logged (Msg.save_format_deprecated (save_format_of kwargs))]
        else []) ++
       [Logged Msg.legacy_hdf5; Called writer ans]) /\
  Obs.hands_over Obs.unit_val writer rn /\
  Obs.never Obs.is_archive_backend (trace rn) = true.
Proof.
  intros Hw Hrest rn writer; subst rn writer.
  apply weights_h5_is_legacy in Hw as [Hl Hk].
  read_kwargs kwargs. subst. cbn. rewrite Hk, Hl. cbn.
  repeat split_kwargs; rewrite ?Hk, ?Hl; crunch h.
  all: unfold Obs.hands_over; cbn; repeat split; eauto.
Qed.

Lemma save_weights_h5_goes_legacy_witness :
  let kwargs := [("include_optimizer", PyBool false)] in
  let rn := run Sim.handler
                (save_model Ex.model "model.weights.h5" true kwargs)
                Sim.empty in
  endswith "model.weights.h5" ".weights.h5" = true /\
  unsupported_of kwargs = [] /\
  Obs.hands_over Obs.unit_val
    (save_model_to_hdf5 Ex.model "model.weights.h5" true (PyBool false)) rn /\
  Obs.never Obs.is_archive_backend (trace rn) = true.
Proof.
  do 2 (split; [reflexivity|]).
  exact (proj2 (save_weights_h5_goes_legacy _ Sim.handler Sim.empty Ex.model
                  "model.weights.h5" true
                  [("include_optimizer", PyBool false)] eq_refl eq_refl)).
Defined.

(** On a [.keras] destination, [include_optimizer] is popped and then
    not read again: the request without it is the same program. *)
Lemma save_keras_forgets_include_optimizer
    (model : PyVal) (filepath : string) (overwrite : bool)
    (kwargs : Kwargs.t) :
  endswith filepath ".keras" = true ->
  save_model model filepath overwrite kwargs =
  save_model model filepath overwrite
             (Kwargs.remove "include_optimizer" kwargs).
Proof.
  intros Hk. pose proof (keras_not_legacy _ Hk) as Hl.
  unfold save_model.
  rewrite (pop_eta "include_optimizer" _ kwargs).
  rewrite (pop_eta "include_optimizer" _ (Kwargs.remove _ kwargs)).
  rewrite get_remove_same.
  rewrite (remove_absent "include_optimizer" (Kwargs.remove _ kwargs))
    by apply get_remove_same.
  destruct (Kwargs.pop "save_format" (PyBool false)
              (Kwargs.remove "include_optimizer" kwargs)) as [sf rest].
  rewrite Hk, Hl. reflexivity.
Qed.

(** With [include_optimizer=False] and a [.keras] destination, the
    archive writer is called with the model and the path only. *)
Lemma archive_write_drops_include_optimizer :
  let kwargs := [("include_optimizer", PyBool false)] in
  let rn := run Sim.handler (save_model Ex.model "model.keras" true kwargs)
                Sim.empty in
  (include_optimizer_of kwargs = PyBool false /\
   trace rn =
     [Called (os_path_exists "model.keras") (inr (PyBool false));
      Called (saving_lib_save_model Ex.model "model.keras") (inr PyNone)] /\
   Obs.args (saving_lib_save_model Ex.model "model.keras") =
     [Ex.model; PyStr "model.keras"]) /\
  ~ Spec.archive_write_receives_flag kwargs rn.
Proof.
  split; [repeat split|].
  intros [c [r [Hin [Hw Harg]]]]. cbn in Hin.
  destruct Hin as [Hin|[Hin|[]]]; inversion Hin; subst c; cbn in *.
  - discriminate Hw.
  - destruct Harg as [Ha|[Ha|[]]]; discriminate Ha.
Qed.

(** C5, amended.  On a [.keras] destination the archive writer is called
    with the model and the path only.  [include_optimizer] is taken out
    of the keyword arguments and not passed on: two requests that differ
    in it alone run alike, and when the overwrite guard lets the save
    proceed the request is handed to [saving_lib.save_model(model,
    filepath)]. *)
Theorem archive_write_ignores_include_optimizer
    (W : Type) (h : Handler W) (w : W) (model : PyVal) (filepath : string)
    (overwrite : bool) (kwargs : Kwargs.t) :
  endswith filepath ".keras" = true ->
  let rn := run h (save_model model filepath overwrite kwargs) w in
  (forall kwargs',
     Kwargs.remove "include_optimizer" kwargs' =
     Kwargs.remove "include_optimizer" kwargs ->
     run h (save_model model filepath overwrite kwargs') w = rn) /\
  (forall c r,
     In (Called c r) (trace rn) -> Obs.is_archive_write c = true ->
     Obs.args c = [model; PyStr filepath]) /\
  (unsupported_of kwargs = [] -> Obs.guard_granted (trace rn) = true ->
   Obs.hands_over Obs.unit_val (saving_lib_save_model model filepath) rn).
Proof.
  intros Hk rn. split; [|split].
  - intros kwargs' Hsame. subst rn.
    rewrite (save_keras_forgets_include_optimizer _ _ _ kwargs' Hk).
    rewrite (save_keras_forgets_include_optimizer _ _ _ kwargs Hk).
    now rewrite Hsame.
  - subst rn. pose proof (keras_not_legacy _ Hk) as Hl.
    read_kwargs kwargs. crunch h.
    all: intros c r Hin Hw; cbn in Hin.
    all: repeat match goal with
           | H : _ \/ _ |- _ => destruct H
           | H : False |- _ => destruct H
           | H : Logged _ = Called _ _ |- _ => discriminate H
           | H : Called _ _ = Called _ _ |- _ =>
               inversion H; clear H; subst
           end.
    all: try discriminate Hw; reflexivity.
  - subst rn. pose proof (keras_not_legacy _ Hk) as Hl.
    read_kwargs kwargs. intros ->. crunch h.
    all: intros; try discriminate.
    all: unfold Obs.hands_over; cbn; split; eauto.
Qed.

Lemma archive_write_ignores_include_optimizer_witness :
  let rn := run Sim.handler
                (save_model Ex.model "model.keras" true
                            [("include_optimizer", PyBool false)])
                Sim.empty in
  endswith "model.keras" ".keras" = true /\
  run Sim.handler
      (save_model Ex.model "model.keras" true
                  [("include_optimizer", PyBool true)]) Sim.empty = rn /\
  Obs.guard_granted (trace rn) = true /\
  Obs.hands_over Obs.unit_val (saving_lib_save_model Ex.model "model.keras")
                 rn.
Proof.
  pose proof (archive_write_ignores_include_optimizer _ Sim.handler Sim.empty
                Ex.model "model.keras" true
                [("include_optimizer", PyBool false)] eq_refl)
    as [Hsame [_ Hover]].
  split; [reflexivity|]. split; [exact (Hsame _ eq_refl)|].
  split; [reflexivity|]. exact (Hover eq_refl eq_refl).
Defined.

(** A truthy [save_format] on a path with a recognised extension only
    adds a warning in front of the request without it. *)
Lemma save_format_is_a_warning
    (model : PyVal) (filepath : string) (overwrite : bool)
    (kwargs : Kwargs.t) :
  truthy (save_format_of kwargs) = true ->
  endswith_any filepath [".h5"; ".hdf5"] || endswith filepath ".keras" = true ->
  save_model model filepath overwrite kwargs =
  Warn (Msg.save_format_deprecated (save_format_of kwargs))
       (save_model model filepath overwrite
                   (Kwargs.remove "save_format" kwargs)).
Proof.
  intros Ht Hrec. rewrite save_format_of_eq in *.
  unfold save_model. rewrite !pop_eta.
  rewrite (get_remove_other "save_format" "include_optimizer")
    by discriminate.
  rewrite (get_remove_other "include_optimizer" "save_format")
    by discriminate.
  rewrite (get_remove_other "save_format" "include_optimizer")
    by discriminate.
  rewrite get_remove_same.
  rewrite (remove_comm "include_optimizer" "save_format").
  rewrite (remove_absent "save_format" (Kwargs.remove "save_format" _))
    by apply get_remove_same.
  rewrite Ht, Hrec. reflexivity.
Qed.

(** [save_format="h5"] with a [.keras] destination is accepted: a
    warning, and the model is written as an archive. *)
Lemma save_format_h5_on_keras_path_accepted :
  let kwargs := [("save_format", PyStr "h5")] in
  let rn := run Sim.handler (save_model Ex.model "model.keras" true kwargs)
                Sim.empty in
  (truthy (save_format_of kwargs) = true /\
   Spec.save_format_agrees (save_format_of kwargs) "model.keras" = false /\
   trace rn =
     [Logged (Msg.save_format_deprecated (PyStr "h5"));
      Called (os_path_exists "model.keras") (inr (PyBool false));
      Called (saving_lib_save_model Ex.model "model.keras") (inr PyNone)] /\
   outcome rn = Returned tt) /\
  ~ Spec.disagreeing_save_format_rejected.
Proof.
  split; [repeat split|].
  intros claim.
  destruct (claim _ Sim.handler Sim.empty Ex.model "model.keras" true
                  [("save_format", PyStr "h5")] eq_refl eq_refl)
    as [e He].
  discriminate He.
Qed.

(** C6, amended.  The value of a truthy [save_format] is never compared
    with the extension.  When the path ends in [.h5], [.hdf5] or
    [.keras], the request runs as the request without [save_format],
    after one deprecation warning; otherwise [save_model] raises at
    once, before any call. *)
Theorem save_format_only_warns
    (W : Type) (h : Handler W) (w : W) (model : PyVal) (filepath : string)
    (overwrite : bool) (kwargs : Kwargs.t) :
  truthy (save_format_of kwargs) = true ->
  let rn := run h (save_model model filepath overwrite kwargs) w in
  let recognised :=
    endswith_any filepath [".h5"; ".hdf5"] || endswith filepath ".keras" in
  (recognised = true ->
   rn = log (Logged (Msg.save_format_deprecated (save_format_of kwargs)))
            (run h (save_model model filepath overwrite
                               (Kwargs.remove "save_format" kwargs)) w)) /\
  (recognised = false ->
   trace rn = [] /\ final rn = w /\
   outcome rn = Raised (Err.save_format_rejected (save_format_of kwargs))).
Proof.
  intros Ht rn recognised; subst rn recognised. split; intros Hrec.
  - now rewrite (save_format_is_a_warning _ _ _ _ Ht Hrec).
  - read_kwargs kwargs. cbn. rewrite Ht, Hrec. cbn. repeat split.
Qed.

Lemma save_format_only_warns_witness :
  (let kwargs := [("save_format", PyStr "h5")] in
   let rn := run Sim.handler (save_model Ex.model "model.keras" true kwargs)
                 Sim.empty in
   truthy (save_format_of kwargs) = true /\
   rn = log (Logged (Msg.save_format_deprecated (PyStr "h5")))
            (run Sim.handler (save_model Ex.model "model.keras" true [])
                 Sim.empty)) /\
  (let kwargs := [("save_format", PyStr "tf")] in
   let rn := run Sim.handler (save_model Ex.model "saved_model" true kwargs)
                 Sim.empty in
   truthy (save_format_of kwargs) = true /\
   outcome rn = Raised (Err.save_format_rejected (PyStr "tf"))).
Proof.
  split; (split; [reflexivity|]).
  - exact (proj1 (save_format_only_warns _ Sim.handler Sim.empty Ex.model
                    "model.keras" true [("save_format", PyStr "h5")]
                    eq_refl) eq_refl).
  - exact (proj2 (proj2 (proj2 (save_format_only_warns _ Sim.handler
                    Sim.empty Ex.model "saved_model" true
                    [("save_format", PyStr "tf")] eq_refl) eq_refl))).
Defined.

(** ** Loading weights *)

Lemma legacy_family (filepath : string) :
  endswith filepath ".h5" || endswith filepath ".hdf5" = true ->
  endswith_any filepath [".h5"; ".hdf5"] = true.
Proof.
  intros H. unfold endswith_any; simpl. now rewrite orb_false_r.
Qed.

(** C8.  On a legacy path ([.h5] or [.hdf5], not [.weights.h5]) with no
    keyword but [by_name], when [h5py] could not be imported,
    [load_weights] raises an [ImportError] whose message names [h5py],
    before any call: no file is opened. *)
Theorem load_weights_h5py_missing
    (W : Type) (h : Handler W) (w : W) (model : PyVal) (filepath : string)
    (skip_mismatch : bool) (kwargs : Kwargs.t) :
  endswith filepath ".weights.h5" = false ->
  endswith filepath ".h5" || endswith filepath ".hdf5" = true ->
  Kwargs.remove "by_name" kwargs = [] ->
  let rn := run h (load_weights false model filepath skip_mismatch kwargs) w in
  trace rn = [] /\ final rn = w /\
  outcome rn = Raised Err.h5py_missing /\
  exn_class Err.h5py_missing = ImportError /\
  Obs.mentions "h5py" (exn_msg Err.h5py_missing) = true.
Proof.
  intros Hw Hl Hkw rn; subst rn.
  pose proof (legacy_not_keras _ (legacy_family _ Hl)) as Hk.
  unfold load_weights. rewrite Hk, Hw, Hl, pop_eta, Hkw. cbn.
  repeat split.
Qed.

Lemma load_weights_h5py_missing_witness :
  let rn := run Sim.handler
                (load_weights false Ex.model "w.h5" false
                              [("by_name", PyBool true)])
                Ex.weights_mismatch in
  endswith "w.h5" ".weights.h5" = false /\
  endswith "w.h5" ".h5" || endswith "w.h5" ".hdf5" = true /\
  Obs.never Obs.opens_file (trace rn) = true /\
  outcome rn = Raised Err.h5py_missing.
Proof.
  do 3 (split; [reflexivity|]).
  exact (proj1 (proj2 (proj2 (load_weights_h5py_missing _ Sim.handler
                 Ex.weights_mismatch Ex.model "w.h5" false
                 [("by_name", PyBool true)] eq_refl eq_refl eq_refl)))).
Defined.





(** * Further properties of the dispatcher *)

(** ** [save_model] *)

Lemma keys_remove (k : string) (kw : Kwargs.t) :
  Kwargs.keys (Kwargs.remove k kw) =
  filter (fun x => negb (String.eqb x k)) (Kwargs.keys kw).
Proof.
  induction kw as [|[x v] kw IH]; simpl; [reflexivity|].
  destruct (String.eqb x k); simpl; now rewrite IH.
Qed.

Lemma filter_filter {A : Type} (f g : A -> bool) (l : list A) :
  filter f (filter g l) = filter (fun x => g x && f x) l.
Proof.
  induction l as [|x l IH]; simpl; [reflexivity|].
  destruct (g x); simpl; [destruct (f x)|]; now rewrite IH.
Qed.

(** The keys [save_model] does not support are the keys passed, less
    its two options, in the order they were passed. *)
Lemma keys_unsupported (kw : Kwargs.t) :
  Kwargs.keys (unsupported_of kw) =
  filter (fun k => negb (String.eqb k "include_optimizer") &&
                   negb (String.eqb k "save_format"))
         (Kwargs.keys kw).
Proof.
  unfold unsupported_of. rewrite !pop_rest, !keys_remove.
  apply filter_filter.
Qed.

(** X1.  A keyword other than [include_optimizer] and [save_format]
    makes [save_model] raise a [ValueError] before any call to a
    collaborator, whatever the path; unless the [save_format] check
    fails first, the error lists the offending keys, in the order they
    were passed. *)
Theorem save_model_unsupported_keywords
    (W : Type) (h : Handler W) (w : W) (model : PyVal) (filepath : string)
    (overwrite : bool) (kwargs : Kwargs.t) :
  unsupported_of kwargs <> [] ->
  let rn := run h (save_model model filepath overwrite kwargs) w in
  Obs.never Route.any (trace rn) = true /\ final rn = w /\
  (exists e, outcome rn = Raised e /\ exn_class e = ValueError) /\
  (truthy (save_format_of kwargs) = false \/
   endswith_any filepath [".h5"; ".hdf5"] || endswith filepath ".keras" = true ->
   outcome rn = Raised (Err.unsupported_arguments (unsupported_of kwargs))) /\
  Kwargs.keys (unsupported_of kwargs) =
    filter (fun k => negb (String.eqb k "include_optimizer") &&
                     negb (String.eqb k "save_format"))
           (Kwargs.keys kwargs).
Proof.
  intros Hne rn. pose proof (keys_unsupported kwargs) as Hkeys. subst rn.
  unfold save_model, save_format_of, unsupported_of in *.
  destruct (Kwargs.pop "include_optimizer" (PyBool true) kwargs)
    as [io kw1]; cbn [fst snd] in *.
  destruct (Kwargs.pop "save_format" (PyBool false) kw1) as [sf rest];
    cbn [fst snd] in *.
  destruct rest as [|kv rest]; [congruence|]. cbn.
  destruct (truthy sf) eqn:Ht;
    destruct (endswith_any filepath [".h5"; ".hdf5"] ||
              endswith filepath ".keras") eqn:Hrec; cbn.
  all: split; [reflexivity|]; split; [reflexivity|].
  all: split; [eexists; split; reflexivity|].
  all: split; [|exact Hkeys].
  all: intros [Hc|Hc]; try discriminate; reflexivity.
Qed.

Lemma save_model_unsupported_keywords_witness :
  let kwargs := [("signatures", PyNone); ("include_optimizer", PyBool false);
                 ("options", PyNone)] in
  let rn := run Sim.handler (save_model Ex.model "model.keras" true kwargs)
                Sim.empty in
  Kwargs.keys (unsupported_of kwargs) = ["signatures"; "options"] /\
  outcome rn = Raised (Err.unsupported_arguments (unsupported_of kwargs)).
Proof.
  split; [reflexivity|].
  refine (proj1 (proj2 (proj2 (proj2
    (save_model_unsupported_keywords _ Sim.handler Sim.empty Ex.model
       "model.keras" true
       [("signatures", PyNone); ("include_optimizer", PyBool false);
        ("options", PyNone)] _)))) (or_introl eq_refl)).
  discriminate.
Defined.

(** X2.  On a [.keras] destination, a [TypeError] of the existence
    check counts as "does not exist": the prompt is not asked, even with
    [overwrite=False], and the request is handed to the archive writer.
    Any other exception of the existence check comes out of
    [save_model], and nothing is written. *)
Theorem save_model_exists_check_fails
    (W : Type) (h : Handler W) (w : W) (model : PyVal) (filepath : string)
    (overwrite : bool) (kwargs : Kwargs.t) (e : Exn) :
  let rn := run h (save_model model filepath overwrite kwargs) w in
  Route.raised (os_path_exists filepath) e (trace rn) ->
  Obs.never Route.is_prompt (trace rn) = true /\
  (is_TypeError e = true ->
   Obs.hands_over Obs.unit_val (saving_lib_save_model model filepath) rn) /\
  (is_TypeError e = false ->
   outcome rn = Raised e /\ Obs.never Obs.writes_files (trace rn) = true).
Proof.
  intros rn; subst rn. unfold Route.raised. read_kwargs kwargs.
  destruct (endswith filepath ".keras") eqn:Hk;
    destruct (endswith_any filepath [".h5"; ".hdf5"]) eqn:Hl;
    crunch h.
  all: intros Hin; cbn in Hin; in_cases.
  all: split; [reflexivity|]; split; intros Hcls; try congruence.
  all: unfold Obs.hands_over; cbn; repeat split; eauto.
Qed.

Lemma save_model_exists_check_fails_witness :
  (let rn := run (Faulty.exists_raises Faulty.not_a_path)
                 (save_model Ex.model "model.keras" false [])
                 Ex.existing_keras in
   Route.raised (os_path_exists "model.keras") Faulty.not_a_path (trace rn) /\
   Obs.hands_over Obs.unit_val (saving_lib_save_model Ex.model "model.keras")
                  rn) /\
  (let rn := run (Faulty.exists_raises Faulty.disk_error)
                 (save_model Ex.model "model.keras" false [])
                 Ex.existing_keras in
   Route.raised (os_path_exists "model.keras") Faulty.disk_error (trace rn) /\
   outcome rn = Raised Faulty.disk_error).
Proof.
  split.
  - assert (Hr : Route.raised (os_path_exists "model.keras")
                   Faulty.not_a_path
                   (trace (run (Faulty.exists_raises Faulty.not_a_path)
                             (save_model Ex.model "model.keras" false [])
                             Ex.existing_keras)))
      by (left; reflexivity).
    split; [exact Hr|].
    exact (proj1 (proj2 (save_model_exists_check_fails _ _ _ _ _ _ _ _ Hr))
                 eq_refl).
  - assert (Hr : Route.raised (os_path_exists "model.keras")
                   Faulty.disk_error
                   (trace (run (Faulty.exists_raises Faulty.disk_error)
                             (save_model Ex.model "model.keras" false [])
                             Ex.existing_keras)))
      by (left; reflexivity).
    split; [exact Hr|].
    exact (proj1 (proj2 (proj2
             (save_model_exists_check_fails _ _ _ _ _ _ _ _ Hr)) eq_refl)).
Defined.

(** X3.  The overwrite prompt is asked only about the destination
    itself, only for a [.keras] destination, only with
    [overwrite=False] and only after the existence check answered that
    the file exists; with [overwrite=True] the user is never asked. *)
Theorem save_model_prompt_only_when_needed
    (W : Type) (h : Handler W) (w : W) (model : PyVal) (filepath : string)
    (overwrite : bool) (kwargs : Kwargs.t) (p : string) :
  let rn := run h (save_model model filepath overwrite kwargs) w in
  Route.called (ask_to_proceed_with_overwrite p) (trace rn) ->
  p = filepath /\ endswith filepath ".keras" = true /\ overwrite = false /\
  Obs.answered (os_path_exists filepath) (PyBool true) (trace rn).
Proof.
  intros rn; subst rn. unfold Route.called, Obs.answered.
  read_kwargs kwargs.
  destruct (endswith filepath ".keras") eqn:Hk;
    destruct (endswith_any filepath [".h5"; ".hdf5"]) eqn:Hl;
    crunch h.
  all: intros [r Hin]; cbn in Hin; in_cases.
  all: repeat split; cbn; auto 10.
Qed.

Lemma save_model_prompt_only_when_needed_witness :
  let rn := run Sim.handler (save_model Ex.model "model.keras" false [])
                Ex2.local_keras in
  Route.called (ask_to_proceed_with_overwrite "model.keras") (trace rn) /\
  Obs.answered (os_path_exists "model.keras") (PyBool true) (trace rn) /\
  Obs.hands_over Obs.unit_val (saving_lib_save_model Ex.model "model.keras")
                 rn.
Proof.
  assert (Hc : Route.called (ask_to_proceed_with_overwrite "model.keras")
                 (trace (run Sim.handler
                           (save_model Ex.model "model.keras" false [])
                           Ex2.local_keras)))
    by (exists (inr (PyBool true)); right; left; reflexivity).
  split; [exact Hc|]. split.
  - exact (proj2 (proj2 (proj2
      (save_model_prompt_only_when_needed _ Sim.handler Ex2.local_keras
         Ex.model "model.keras" false [] "model.keras" Hc)))).
  - split; [reflexivity|]. exists tt. split; reflexivity.
Defined.

(** X4.  On a [.h5] or [.hdf5] destination the dispatcher does no
    overwrite handling of its own: it neither checks that the file
    exists nor asks the user, also with [overwrite=False]; after the
    deprecation warning it hands the model, the path, [overwrite] and
    [include_optimizer] (by default [True]) to the legacy writer. *)
Theorem save_model_legacy_route
    (W : Type) (h : Handler W) (w : W) (model : PyVal) (filepath : string)
    (overwrite : bool) (kwargs : Kwargs.t) :
  endswith_any filepath [".h5"; ".hdf5"] = true ->
  unsupported_of kwargs = [] ->
  let rn := run h (save_model model filepath overwrite kwargs) w in
  Obs.hands_over Obs.unit_val
    (save_model_to_hdf5 model filepath overwrite
                        (include_optimizer_of kwargs)) rn /\
  Obs.never Route.is_exists_check (trace rn) = true /\
  Obs.never Route.is_prompt (trace rn) = true /\
  In (Logged Msg.legacy_hdf5) (trace rn) /\
  (Kwargs.get "include_optimizer" kwargs = None ->
   include_optimizer_of kwargs = PyBool true).
Proof.
  intros Hl Hrest rn; subst rn.
  pose proof (legacy_not_keras _ Hl) as Hk.
  assert (Hdef : Kwargs.get "include_optimizer" kwargs = None ->
                 include_optimizer_of kwargs = PyBool true).
  { intros Hnone. unfold include_optimizer_of. now rewrite pop_value, Hnone. }
  revert Hdef. read_kwargs kwargs. subst. intros Hdef.
  crunch h.
  all: unfold Obs.hands_over; cbn; repeat split; eauto 6.
Qed.

Lemma save_model_legacy_route_witness :
  let rn := run Sim.handler (save_model Ex.model "model.h5" false [])
                (Sim.write "model.h5" false Sim.empty) in
  endswith_any "model.h5" [".h5"; ".hdf5"] = true /\
  unsupported_of [] = [] /\
  Obs.hands_over Obs.unit_val
    (save_model_to_hdf5 Ex.model "model.h5" false (PyBool true)) rn /\
  Obs.never Route.is_prompt (trace rn) = true.
Proof.
  pose proof (save_model_legacy_route _ Sim.handler
                (Sim.write "model.h5" false Sim.empty) Ex.model "model.h5"
                false [] eq_refl eq_refl)
    as [Hover [_ [Hprompt _]]].
  do 2 (split; [reflexivity|]). split; [exact Hover | exact Hprompt].
Defined.

(** A falsy [save_format] leaves the request as it is without it. *)
Lemma save_format_falsy_is_dropped
    (model : PyVal) (filepath : string) (overwrite : bool)
    (kwargs : Kwargs.t) :
  truthy (save_format_of kwargs) = false ->
  save_model model filepath overwrite kwargs =
  save_model model filepath overwrite (Kwargs.remove "save_format" kwargs).
Proof.
  intros Ht. rewrite save_format_of_eq in *.
  unfold save_model. rewrite !pop_eta.
  rewrite (get_remove_other "save_format" "include_optimizer")
    by discriminate.
  rewrite (get_remove_other "include_optimizer" "save_format")
    by discriminate.
  rewrite (get_remove_other "save_format" "include_optimizer")
    by discriminate.
  rewrite get_remove_same.
  rewrite (remove_comm "include_optimizer" "save_format").
  rewrite (remove_absent "save_format" (Kwargs.remove "save_format" _))
    by apply get_remove_same.
  rewrite Ht. reflexivity.
Qed.

(** X5.  A [save_format] that is falsy ([None], [False], the empty
    string) is ignored without a warning and without an error, whatever
    the path: the request runs as the request without it. *)
Theorem save_model_falsy_save_format
    (W : Type) (h : Handler W) (w : W) (model : PyVal) (filepath : string)
    (overwrite : bool) (kwargs : Kwargs.t) :
  truthy (save_format_of kwargs) = false ->
  run h (save_model model filepath overwrite kwargs) w =
  run h (save_model model filepath overwrite
                    (Kwargs.remove "save_format" kwargs)) w.
Proof.
  intros Ht. now rewrite (save_format_falsy_is_dropped _ _ _ _ Ht).
Qed.

Lemma save_model_falsy_save_format_witness :
  truthy (save_format_of [("save_format", PyStr "")]) = false /\
  run Sim.handler
      (save_model Ex.model "model" true [("save_format", PyStr "")])
      Sim.empty =
  run Sim.handler (save_model Ex.model "model" true []) Sim.empty.
Proof.
  split; [reflexivity|].
  exact (save_model_falsy_save_format _ Sim.handler Sim.empty Ex.model
           "model" true [("save_format", PyStr "")] eq_refl).
Defined.

(** X6.  Whatever the request and the environment, [save_model] calls
    nothing but the existence check and the prompt on the destination
    and the two writers, on the model and the destination it was given;
    a writer, when called, is the last call of the run, so at most one
    file is written. *)
Theorem save_model_calls
    (W : Type) (h : Handler W) (w : W) (model : PyVal) (filepath : string)
    (overwrite : bool) (kwargs : Kwargs.t) (c : Call) (r : Exn + PyVal) :
  let rn := run h (save_model model filepath overwrite kwargs) w in
  In (Called c r) (trace rn) ->
  (c = os_path_exists filepath \/
   c = ask_to_proceed_with_overwrite filepath \/
   c = saving_lib_save_model model filepath \/
   c = save_model_to_hdf5 model filepath overwrite
                          (include_optimizer_of kwargs)) /\
  (Obs.writes_files c = true ->
   Obs.last_event (trace rn) = Some (Called c r)).
Proof.
  intros rn; subst rn. read_kwargs kwargs.
  destruct (endswith filepath ".keras") eqn:Hk;
    destruct (endswith_any filepath [".h5"; ".hdf5"]) eqn:Hl;
    crunch h.
  all: intros Hin; cbn in Hin; in_cases.
  all: split; [auto 6 | cbn; intros Hw; try discriminate Hw; reflexivity].
Qed.

Lemma save_model_calls_witness :
  let rn := run Sim.handler (save_model Ex.model "model.keras" false [])
                Ex2.local_keras in
  let c := saving_lib_save_model Ex.model "model.keras" in
  In (Called c (inr PyNone)) (trace rn) /\
  Obs.last_event (trace rn) = Some (Called c (inr PyNone)).
Proof.
  assert (Hin : In (Called (saving_lib_save_model Ex.model "model.keras")
                           (inr PyNone))
                   (trace (run Sim.handler
                             (save_model Ex.model "model.keras" false [])
                             Ex2.local_keras)))
    by (right; right; left; reflexivity).
  split; [exact Hin|].
  exact (proj2 (save_model_calls _ Sim.handler Ex2.local_keras Ex.model
                  "model.keras" false [] _ _ Hin) eq_refl).
Defined.

(** ** [load_model] *)

(** X7.  A source that is not remote, or that is a remote directory, is
    not staged: the temporary directory is not asked for and nothing is
    copied.  Every call of the run is about the path given; the zip
    probe is made only for a path that ends in [.keras], so a local zip
    archive under another name is never probed. *)
Theorem load_model_not_staged
    (W : Type) (h : Handler W) (w : W)
    (filepath : string) (custom_objects : PyVal) (compile safe_mode : bool)
    (c : Call) (r : Exn + PyVal) :
  let rn := run h (load_model filepath custom_objects compile safe_mode) w in
  Obs.answered (is_remote_path filepath) (PyBool false) (trace rn) \/
  Obs.answered (isdir filepath) (PyBool true) (trace rn) ->
  In (Called c r) (trace rn) ->
  Obs.never Obs.writes_files (trace rn) = true /\
  match c with
  | zipfile_is_zipfile p => p = filepath /\ endswith filepath ".keras" = true
  | is_remote_path p | isdir p | load_model_from_hdf5 p => p = filepath
  | saving_lib_load_model p co cm sm =>
      p = filepath /\ co = custom_objects /\ cm = compile /\ sm = safe_mode
  | _ => False
  end.
Proof.
  intros rn; subst rn. unfold load_model, Obs.answered.
  destruct (endswith filepath ".keras") eqn:Hk;
    destruct (endswith_any filepath [".h5"; ".hdf5"]) eqn:Hl;
    crunch h.
  all: intros Hno Hin; cbn in Hno, Hin.
  all: try (now in_cases).
  all: destruct Hin as [Hin|Hin]; in_cases; repeat split; reflexivity.
Qed.

Lemma load_model_not_staged_witness :
  let rn := run Sim.handler (load_model "model.zip" PyNone true true)
                Ex2.local_zip in
  Obs.answered (is_remote_path "model.zip") (PyBool false) (trace rn) /\
  Obs.never Obs.writes_files (trace rn) = true /\
  Obs.never Route.is_zip_probe (trace rn) = true /\
  outcome rn = Raised (Err.load_format_not_supported "model.zip").
Proof.
  assert (Hin : In (Called (is_remote_path "model.zip") (inr (PyBool false)))
                   (trace (run Sim.handler
                             (load_model "model.zip" PyNone true true)
                             Ex2.local_zip)))
    by (left; reflexivity).
  split; [exact Hin|]. split.
  - exact (proj1 (load_model_not_staged _ Sim.handler Ex2.local_zip
                    "model.zip" PyNone true true _ _ (or_introl Hin) Hin)).
  - split; reflexivity.
Defined.

(** X8.  Every call of the archive reader carries the caller's
    [custom_objects], [compile] and [safe_mode] unchanged; the path it
    reads is the path given or the staged copy of it, and the call is
    the last of the run. *)
Theorem load_model_archive_read_options
    (W : Type) (h : Handler W) (w : W)
    (filepath : string) (custom_objects : PyVal) (compile safe_mode : bool)
    (p : string) (co : PyVal) (cm sm : bool) (r : Exn + PyVal) :
  let rn := run h (load_model filepath custom_objects compile safe_mode) w in
  In (Called (saving_lib_load_model p co cm sm) r) (trace rn) ->
  (co = custom_objects /\ cm = compile /\ sm = safe_mode) /\
  (p = filepath \/
   exists tmp, Obs.answered get_temp_dir (PyStr tmp) (trace rn) /\
               p = join tmp (basename filepath)) /\
  Obs.last_event (trace rn) =
    Some (Called (saving_lib_load_model p co cm sm) r).
Proof.
  intros rn; subst rn. unfold load_model, Obs.answered.
  destruct (endswith filepath ".keras") eqn:Hk;
    destruct (endswith_any filepath [".h5"; ".hdf5"]) eqn:Hl;
    crunch h.
  all: intros Hin; cbn in Hin; in_cases.
  all: split; [repeat split|]; split; try reflexivity.
  all: first [ left; reflexivity
             | right; eexists; split; [cbn; eauto 10 | reflexivity] ].
Qed.

Lemma load_model_archive_read_options_witness :
  let rn := run Sim.handler
                (load_model "gs://bucket/model.keras" (PyObj 7) false true)
                Ex2.remote_keras in
  let c := saving_lib_load_model "/tmp/keras/model.keras" (PyObj 7) false true in
  In (Called c (inr (PyObj 1))) (trace rn) /\
  Obs.last_event (trace rn) = Some (Called c (inr (PyObj 1))).
Proof.
  assert (Hin : In (Called (saving_lib_load_model "/tmp/keras/model.keras"
                              (PyObj 7) false true) (inr (PyObj 1)))
                   (trace (run Sim.handler
                             (load_model "gs://bucket/model.keras" (PyObj 7)
                                         false true)
                             Ex2.remote_keras)))
    by (do 6 right; left; reflexivity).
  split; [exact Hin|].
  exact (proj2 (proj2 (load_model_archive_read_options _ Sim.handler
                         Ex2.remote_keras "gs://bucket/model.keras" (PyObj 7)
                         false true _ _ _ _ _ Hin))).
Defined.

(** X9.  [custom_objects], [compile] and [safe_mode] matter to the
    archive reader only: a run that does not reach it (a legacy file, a
    rejected path) is the same run for any other value of the three. *)
Theorem load_model_options_ignored_off_archive
    (W : Type) (h : Handler W) (w : W)
    (filepath : string) (custom_objects : PyVal) (compile safe_mode : bool)
    (custom_objects' : PyVal) (compile' safe_mode' : bool) :
  let rn := run h (load_model filepath custom_objects compile safe_mode) w in
  Obs.never Obs.is_archive_read (trace rn) = true ->
  run h (load_model filepath custom_objects' compile' safe_mode') w = rn.
Proof.
  intros rn; subst rn. unfold load_model.
  destruct (endswith filepath ".keras") eqn:Hk;
    destruct (endswith_any filepath [".h5"; ".hdf5"]) eqn:Hl;
    crunch h.
  all: intros Hnever; try discriminate Hnever; reflexivity.
Qed.

Lemma load_model_options_ignored_off_archive_witness :
  let rn := run Sim.handler (load_model "model.h5" PyNone true true)
                Sim.empty in
  Obs.never Obs.is_archive_read (trace rn) = true /\
  run Sim.handler (load_model "model.h5" (PyObj 7) false false) Sim.empty = rn.
Proof.
  split; [reflexivity|].
  exact (load_model_options_ignored_off_archive _ Sim.handler Sim.empty
           "model.h5" PyNone true true (PyObj 7) false false eq_refl).
Defined.

(** X10.  A copy is made only of a remote source that is not a
    directory; it goes to the temporary directory under the base name
    of the source, and it overwrites what is there. *)
Theorem load_model_copy
    (W : Type) (h : Handler W) (w : W)
    (filepath : string) (custom_objects : PyVal) (compile safe_mode : bool)
    (src dst : string) (ow : bool) (r : Exn + PyVal) :
  let rn := run h (load_model filepath custom_objects compile safe_mode) w in
  In (Called (file_utils_copy src dst ow) r) (trace rn) ->
  src = filepath /\ ow = true /\
  Obs.answered (is_remote_path filepath) (PyBool true) (trace rn) /\
  Obs.answered (isdir filepath) (PyBool false) (trace rn) /\
  exists tmp, Obs.answered get_temp_dir (PyStr tmp) (trace rn) /\
              dst = join tmp (basename filepath).
Proof.
  intros rn; subst rn. unfold load_model, Obs.answered.
  destruct (endswith filepath ".keras") eqn:Hk;
    destruct (endswith_any filepath [".h5"; ".hdf5"]) eqn:Hl;
    crunch h.
  all: intros Hin; cbn in Hin; in_cases.
  all: do 4 (split; [cbn; auto 10|]).
  all: eexists; split; [cbn; eauto 10 | reflexivity].
Qed.

Lemma load_model_copy_witness :
  let rn := run Sim.handler
                (load_model "gs://bucket/model.keras" PyNone true true)
                Ex2.remote_keras in
  In (Called (file_utils_copy "gs://bucket/model.keras"
                              "/tmp/keras/model.keras" true) (inr PyNone))
     (trace rn) /\
  Obs.answered (isdir "gs://bucket/model.keras") (PyBool false) (trace rn).
Proof.
  assert (Hin : In (Called (file_utils_copy "gs://bucket/model.keras"
                              "/tmp/keras/model.keras" true) (inr PyNone))
                   (trace (run Sim.handler
                             (load_model "gs://bucket/model.keras" PyNone
                                         true true)
                             Ex2.remote_keras)))
    by (do 4 right; left; reflexivity).
  split; [exact Hin|].
  exact (proj1 (proj2 (proj2 (proj2
           (load_model_copy _ Sim.handler Ex2.remote_keras
              "gs://bucket/model.keras" PyNone true true _ _ _ _ Hin))))).
Defined.



(** X12.  A source that the first call of the run, the zip probe of
    a [.keras] path, finds to be a zip archive is handed to the archive
    reader under the path given, be the path local or remote: it is not
    staged, and no call of the run writes a file. *)
Theorem load_model_keras_archive
    (W : Type) (h : Handler W) (w : W)
    (filepath : string) (custom_objects : PyVal) (compile safe_mode : bool) :
  let rn := run h (load_model filepath custom_objects compile safe_mode) w in
  hd_error (trace rn) =
    Some (Called (zipfile_is_zipfile filepath) (inr (PyBool true))) ->
  Obs.returned_except Obs.is_backend_read (trace rn) = true ->
  endswith filepath ".keras" = true /\
  Obs.hands_over Obs.py_val
    (saving_lib_load_model filepath custom_objects compile safe_mode) rn /\
  Obs.some Obs.is_copy (trace rn) = false /\
  Obs.never Obs.writes_files (trace rn) = true /\
  Obs.never Obs.is_legacy_read (trace rn) = true.
Proof.
  intros rn; subst rn. unfold load_model.
  destruct (endswith filepath ".keras") eqn:Hk;
    destruct (endswith_any filepath [".h5"; ".hdf5"]) eqn:Hl;
    crunch h.
  all: intros Hfirst; cbn in Hfirst; try discriminate Hfirst.
  all: intros Hret; try discriminate Hret.
  all: unfold Obs.hands_over; cbn; repeat split; eauto.
Qed.

Lemma load_model_keras_archive_witness :
  let rn := run (Faulty.local_probe_succeeds "gs://bucket/model.keras")
                (load_model "gs://bucket/model.keras" PyNone true true)
                Ex2.remote_keras in
  hd_error (trace rn) =
    Some (Called (zipfile_is_zipfile "gs://bucket/model.keras")
                 (inr (PyBool true))) /\
  Obs.answered (is_remote_path "gs://bucket/model.keras") (PyBool true)
               (trace rn) /\
  Obs.hands_over Obs.py_val
    (saving_lib_load_model "gs://bucket/model.keras" PyNone true true) rn /\
  Obs.never Obs.writes_files (trace rn) = true.
Proof.
  pose proof (load_model_keras_archive _
                (Faulty.local_probe_succeeds "gs://bucket/model.keras")
                Ex2.remote_keras "gs://bucket/model.keras" PyNone true true
                eq_refl eq_refl) as [_ [Hover [_ [Hwrite _]]]].
  split; [reflexivity|]. split; [right; left; reflexivity|].
  split; [exact Hover | exact Hwrite].
Defined.

(** X13.  [load_model] calls nothing but the zip probe, the staging
    calls and a reader: never a writer of models, never the prompt.  A
    reader, when called, is the last call of the run, and [load_model]
    returns what it returns or raises what it raises. *)
Theorem load_model_calls
    (W : Type) (h : Handler W) (w : W)
    (filepath : string) (custom_objects : PyVal) (compile safe_mode : bool)
    (c : Call) (r : Exn + PyVal) :
  let rn := run h (load_model filepath custom_objects compile safe_mode) w in
  In (Called c r) (trace rn) ->
  (Route.is_staging c = true \/ Obs.is_backend_read c = true) /\
  (Obs.is_backend_read c = true ->
   Obs.last_event (trace rn) = Some (Called c r) /\
   Obs.hands_over Obs.py_val c rn).
Proof.
  intros rn; subst rn. unfold load_model.
  destruct (endswith filepath ".keras") eqn:Hk;
    destruct (endswith_any filepath [".h5"; ".hdf5"]) eqn:Hl;
    crunch h.
  all: intros Hin; cbn in Hin; in_cases.
  all: split; [cbn; auto|].
  all: cbn; intros Hb; try discriminate Hb.
  all: unfold Obs.hands_over; cbn; repeat split; eauto.
Qed.

Lemma load_model_calls_witness :
  let rn := run Sim.handler (load_model "model.h5" PyNone true true)
                Sim.empty in
  In (Called (load_model_from_hdf5 "model.h5") (inr (PyObj 2))) (trace rn) /\
  Obs.hands_over Obs.py_val (load_model_from_hdf5 "model.h5") rn /\
  outcome rn = Returned (PyObj 2).
Proof.
  assert (Hin : In (Called (load_model_from_hdf5 "model.h5") (inr (PyObj 2)))
                   (trace (run Sim.handler
                             (load_model "model.h5" PyNone true true)
                             Sim.empty)))
    by (right; left; reflexivity).
  split; [exact Hin|]. split; [|reflexivity].
  exact (proj2 (proj2 (load_model_calls _ Sim.handler Sim.empty "model.h5"
                         PyNone true true _ _ Hin) eq_refl)).
Defined.

(** ** [load_weights] *)

(** X14.  A [.keras] or [.weights.h5] path goes to the weights reader
    of the archive backend, with the model, the path and
    [skip_mismatch]; [h5py] is not needed and no file is opened here.
    On these routes every keyword is rejected before any call,
    [by_name] included. *)
Theorem load_weights_archive_route
    (W : Type) (h : Handler W) (w : W) (h5py : bool) (model : PyVal)
    (filepath : string) (skip_mismatch : bool) (kwargs : Kwargs.t) :
  endswith filepath ".keras" = true \/
  endswith filepath ".weights.h5" = true ->
  let rn := run h (load_weights h5py model filepath skip_mismatch kwargs) w in
  (kwargs = [] ->
   Obs.hands_over Obs.unit_val
     (saving_lib_load_weights_only model filepath skip_mismatch) rn /\
   Obs.never Route.is_h5py (trace rn) = true /\
   Obs.never Route.is_weights_reader (trace rn) = true) /\
  (kwargs <> [] ->
   trace rn = [] /\ final rn = w /\
   outcome rn = Raised (Err.invalid_keyword_arguments kwargs)).
Proof.
  intros Hsuf rn; subst rn. unfold load_weights.
  destruct (endswith filepath ".keras") eqn:Hk;
    [|destruct (endswith filepath ".weights.h5") eqn:Hw;
      [|destruct Hsuf; discriminate]].
  all: destruct kwargs as [|kv kwargs]; crunch h.
  all: split; intros Hkw; try congruence.
  all: unfold Obs.hands_over; cbn; repeat split; eauto.
Qed.

Lemma load_weights_archive_route_witness :
  (let rn := run Sim.handler
                 (load_weights false Ex.model "model.weights.h5" true [])
                 Sim.empty in
   Obs.hands_over Obs.unit_val
     (saving_lib_load_weights_only Ex.model "model.weights.h5" true) rn) /\
  (let kwargs := [("by_name", PyBool true)] in
   let rn := run Sim.handler
                 (load_weights true Ex.model "model.keras" false kwargs)
                 Sim.empty in
   outcome rn = Raised (Err.invalid_keyword_arguments kwargs)).
Proof.
  split.
  - exact (proj1 (proj1 (load_weights_archive_route _ Sim.handler Sim.empty
                    false Ex.model "model.weights.h5" true []
                    (or_intror eq_refl)) eq_refl)).
  - refine (proj2 (proj2 (proj2 (load_weights_archive_route _ Sim.handler
                    Sim.empty true Ex.model "model.keras" false
                    [("by_name", PyBool true)] (or_introl eq_refl)) _))).
    discriminate.
Defined.

(** X15.  On a legacy path with a truthy [by_name], the weights are
    read by name: the by-name reader is called with the model and
    [skip_mismatch], the by-position reader is not called. *)
Theorem load_weights_by_name
    (W : Type) (h : Handler W) (w : W) (model : PyVal)
    (filepath : string) (skip_mismatch : bool) (kwargs : Kwargs.t) :
  endswith filepath ".weights.h5" = false ->
  endswith filepath ".h5" || endswith filepath ".hdf5" = true ->
  truthy (fst (Kwargs.pop "by_name" (PyBool false) kwargs)) = true ->
  Kwargs.remove "by_name" kwargs = [] ->
  let rn := run h (load_weights true model filepath skip_mismatch kwargs) w in
  (forall c r, In (Called c r) (trace rn) ->
     Route.is_weights_reader c = true ->
     exists f, c = load_weights_from_hdf5_group_by_name f model skip_mismatch) /\
  (Obs.returned_except Route.is_weights_reader (trace rn) = true ->
   Obs.some Route.is_weights_reader (trace rn) = true).
Proof.
  intros Hw Hl Hby Hrest rn; subst rn.
  pose proof (legacy_not_keras _ (legacy_family _ Hl)) as Hk.
  unfold load_weights. rewrite Hk, Hw, Hl.
  rewrite pop_eta in *. cbn [fst] in Hby. rewrite Hrest, Hby.
  crunch h.
  all: split; [intros c r Hin Hrd; cbn in Hin; in_cases;
                try discriminate Hrd; eexists; reflexivity|].
  all: intros Hret; try discriminate Hret; reflexivity.
Qed.

Lemma load_weights_by_name_witness :
  let kwargs := [("by_name", PyBool true)] in
  let rn := run Sim.handler (load_weights true Ex.model "w.hdf5" true kwargs)
                Sim.empty in
  endswith "w.hdf5" ".h5" || endswith "w.hdf5" ".hdf5" = true /\
  Obs.returned_except Route.is_weights_reader (trace rn) = true /\
  Obs.some Route.is_weights_reader (trace rn) = true /\
  Route.called
    (load_weights_from_hdf5_group_by_name (PyObj 10) Ex.model true) (trace rn).
Proof.
  do 2 (split; [reflexivity|]). split.
  - exact (proj2 (load_weights_by_name _ Sim.handler Sim.empty Ex.model
                    "w.hdf5" true [("by_name", PyBool true)]
                    eq_refl eq_refl eq_refl eq_refl) eq_refl).
  - eexists. right; right; left; reflexivity.
Defined.

(** X16.  The only file [load_weights] opens is the path given, for
    reading; once it is open, it is closed at the end of the run,
    also when a reader raises, and the exception of the reader then
    comes out of [load_weights]. *)
Theorem load_weights_closes_file
    (W : Type) (h : Handler W) (w : W) (h5py : bool) (model : PyVal)
    (filepath : string) (skip_mismatch : bool) (kwargs : Kwargs.t)
    (p mode : string) (f0 : PyVal) :
  let rn := run h (load_weights h5py model filepath skip_mismatch kwargs) w in
  Obs.answered (h5py_File p mode) f0 (trace rn) ->
  p = filepath /\ mode = "r" /\
  Route.ends_with (h5_exit f0) (trace rn) /\
  (forall c e,
     Route.is_weights_reader c = true -> Route.raised c e (trace rn) ->
     Obs.answered (h5_exit f0) PyNone (trace rn) ->
     outcome rn = Raised e).
Proof.
  intros rn; subst rn.
  unfold load_weights, Obs.answered, Route.ends_with, Route.raised.
  destruct (endswith filepath ".keras") eqn:Hk;
    destruct (endswith filepath ".weights.h5") eqn:Hw;
    destruct (endswith filepath ".h5" || endswith filepath ".hdf5") eqn:Hl;
    destruct (Kwargs.pop "by_name" (PyBool false) kwargs) as [by_name rest];
    destruct h5py; crunch h.
  all: intros Hin; cbn in Hin; in_cases.
  all: do 2 (split; [reflexivity|]); split; [eexists; reflexivity|].
  all: intros c e' Hrd Hraised Hexit; cbn in Hraised, Hexit; in_cases.
  all: try discriminate Hrd; reflexivity.
Qed.

Lemma load_weights_closes_file_witness :
  let rn := run Sim.handler (load_weights true Ex.model "w.h5" false [])
                Ex.weights_mismatch in
  Obs.answered (h5py_File "w.h5" "r") (PyObj 10) (trace rn) /\
  Route.ends_with (h5_exit (PyObj 10)) (trace rn) /\
  outcome rn =
    Raised (mkExn ValueError
              [Lit "ShapeMismatch at position "; Fmt (PyInt 0)]).
Proof.
  assert (Hin : Obs.answered (h5py_File "w.h5" "r") (PyObj 10)
                  (trace (run Sim.handler
                            (load_weights true Ex.model "w.h5" false [])
                            Ex.weights_mismatch)))
    by (left; reflexivity).
  pose proof (load_weights_closes_file _ Sim.handler Ex.weights_mismatch
                true Ex.model "w.h5" false [] _ _ _ Hin)
    as [_ [_ [Hend Hexn]]].
  split; [exact Hin|]. split; [exact Hend|].
  apply (Hexn (load_weights_from_hdf5_group (PyObj 10) Ex.model)).
  - reflexivity.
  - right; right; left; reflexivity.
  - do 3 right; left; reflexivity.
Defined.

(** X17.  The two layouts of a legacy file.  A reader is given the
    [model_weights] group of the file when the file has no
    [layer_names] attribute and has that group; otherwise it is given
    the file itself.  Whether the group is there is asked only when the
    attribute is missing. *)
Theorem load_weights_nested_layout
    (W : Type) (h : Handler W) (w : W) (h5py : bool) (model : PyVal)
    (filepath : string) (skip_mismatch : bool) (kwargs : Kwargs.t)
    (c : Call) (r : Exn + PyVal) (f0 : PyVal) :
  let rn := run h (load_weights h5py model filepath skip_mismatch kwargs) w in
  let names := h5_attrs_contains f0 "layer_names" in
  let group := h5_contains f0 "model_weights" in
  Obs.answered (h5py_File filepath "r") f0 (trace rn) ->
  In (Called c r) (trace rn) ->
  match c with
  | load_weights_from_hdf5_group_by_name f _ _
  | load_weights_from_hdf5_group f _ =>
      Obs.answered names (PyBool false) (trace rn) /\
      Obs.answered group (PyBool true) (trace rn) /\
      Obs.answered (h5_getitem f0 "model_weights") f (trace rn) \/
      f = f0 /\
      ~ Route.called (h5_getitem f0 "model_weights") (trace rn) /\
      (Obs.answered names (PyBool true) (trace rn) \/
       Obs.answered group (PyBool false) (trace rn))
  | h5_contains _ _ => Obs.answered names (PyBool false) (trace rn)
  | _ => True
  end.
Proof.
  intros rn names group; subst rn names group.
  unfold load_weights, Obs.answered, Route.called.
  destruct (endswith filepath ".keras") eqn:Hk;
    destruct (endswith filepath ".weights.h5") eqn:Hw;
    destruct (endswith filepath ".h5" || endswith filepath ".hdf5") eqn:Hl;
    destruct (Kwargs.pop "by_name" (PyBool false) kwargs) as [by_name rest];
    destruct h5py; crunch h.
  all: intros Hopen Hin; cbn in Hopen, Hin.
  all: in_cases; cbn; auto.
  all: first
    [ left; repeat split; auto 10; fail
    | right; split; [reflexivity|]; split;
      [intros [r' Hc]; cbn in Hc; in_cases | auto 10] ].
Qed.

Lemma load_weights_nested_layout_witness :
  let rn := run Sim.handler (load_weights true Ex.model "w.h5" false [])
                Ex2.nested_h5 in
  Obs.answered (h5py_File "w.h5" "r") (PyObj 10) (trace rn) /\
  In (Called (load_weights_from_hdf5_group (PyObj 11) Ex.model) (inr PyNone))
     (trace rn) /\
  Obs.answered (h5_getitem (PyObj 10) "model_weights") (PyObj 11) (trace rn).
Proof.
  assert (Hopen : Obs.answered (h5py_File "w.h5" "r") (PyObj 10)
                    (trace (run Sim.handler
                              (load_weights true Ex.model "w.h5" false [])
                              Ex2.nested_h5)))
    by (left; reflexivity).
  assert (Hin : In (Called (load_weights_from_hdf5_group (PyObj 11) Ex.model)
                           (inr PyNone))
                   (trace (run Sim.handler
                             (load_weights true Ex.model "w.h5" false [])
                             Ex2.nested_h5)))
    by (do 4 right; left; reflexivity).
  split; [exact Hopen|]. split; [exact Hin|].
  pose proof (load_weights_nested_layout _ Sim.handler Ex2.nested_h5 true
                Ex.model "w.h5" false [] _ _ _ Hopen Hin) as Hcase.
  cbv beta iota zeta in Hcase.
  destruct Hcase as [[_ [_ Hgroup]] | [Hsame _]].
  - exact Hgroup.
  - discriminate Hsame.
Defined.

(** X18.  A path that ends in none of [.keras], [.weights.h5], [.h5],
    [.hdf5] is rejected by [load_weights] before any call, and before
    the keywords are looked at: the error is the unsupported-format
    error also when unknown keywords are passed or [h5py] is missing. *)
Theorem load_weights_unsupported_suffix
    (W : Type) (h : Handler W) (w : W) (h5py : bool) (model : PyVal)
    (filepath : string) (skip_mismatch : bool) (kwargs : Kwargs.t) :
  endswith_any filepath [".keras"; ".weights.h5"; ".h5"; ".hdf5"] = false ->
  let rn := run h (load_weights h5py model filepath skip_mismatch kwargs) w in
  trace rn = [] /\ final rn = w /\
  outcome rn = Raised (Err.weights_format_not_supported filepath).
Proof.
  intros Hout rn; subst rn. unfold endswith_any in Hout. simpl in Hout.
  apply orb_false_elim in Hout as [Hk Hout].
  apply orb_false_elim in Hout as [Hw Hout].
  apply orb_false_elim in Hout as [H5 Hout].
  apply orb_false_elim in Hout as [Hd _].
  unfold load_weights. rewrite Hk, Hw, H5, Hd. repeat split.
Qed.

Lemma load_weights_unsupported_suffix_witness :
  let rn := run Sim.handler
                (load_weights false Ex.model "weights.npz" false
                              [("by_nam", PyBool true)])
                Sim.empty in
  endswith_any "weights.npz" [".keras"; ".weights.h5"; ".h5"; ".hdf5"] = false /\
  outcome rn = Raised (Err.weights_format_not_supported "weights.npz").
Proof.
  split; [reflexivity|].
  exact (proj2 (proj2 (load_weights_unsupported_suffix _ Sim.handler
                         Sim.empty false Ex.model "weights.npz" false
                         [("by_nam", PyBool true)] eq_refl))).
Defined.

(** X19.  On a legacy path, a keyword other than [by_name] is rejected
    before any call and before [h5py] is looked for: the error is the
    invalid-keyword error, listing the keywords without [by_name], also
    when [h5py] is missing. *)
Theorem load_weights_invalid_keyword_first
    (W : Type) (h : Handler W) (w : W) (h5py : bool) (model : PyVal)
    (filepath : string) (skip_mismatch : bool) (kwargs : Kwargs.t) :
  endswith filepath ".weights.h5" = false ->
  endswith filepath ".h5" || endswith filepath ".hdf5" = true ->
  Kwargs.remove "by_name" kwargs <> [] ->
  let rn := run h (load_weights h5py model filepath skip_mismatch kwargs) w in
  trace rn = [] /\ final rn = w /\
  outcome rn =
    Raised (Err.invalid_keyword_arguments (Kwargs.remove "by_name" kwargs)).
Proof.
  intros Hw Hl Hrest rn; subst rn.
  pose proof (legacy_not_keras _ (legacy_family _ Hl)) as Hk.
  unfold load_weights. rewrite Hk, Hw, Hl, pop_eta.
  destruct (Kwargs.remove "by_name" kwargs) as [|kv rest]; [congruence|].
  repeat split.
Qed.

Lemma load_weights_invalid_keyword_first_witness :
  let kwargs := [("by_name", PyBool true); ("reshape", PyBool true)] in
  let rn := run Sim.handler (load_weights false Ex.model "w.h5" false kwargs)
                Sim.empty in
  Kwargs.remove "by_name" kwargs = [("reshape", PyBool true)] /\
  outcome rn =
    Raised (Err.invalid_keyword_arguments [("reshape", PyBool true)]).
Proof.
  split; [reflexivity|].
  refine (proj2 (proj2 (load_weights_invalid_keyword_first _ Sim.handler
                          Sim.empty false Ex.model "w.h5" false
                          [("by_name", PyBool true); ("reshape", PyBool true)]
                          eq_refl eq_refl _))).
  discriminate.
Defined.
